(** * Adaptive Cards Toolkit: a shallow embedding of the core modules

    The development follows the Python package [adaptive_cards_toolkit.core]:
    - [ElementFactory]   (core/element_factory.py)
    - [LayoutHelper]     (core/layout_helper.py)
    - [DataConnector]    (core/data_connector.py)
    - [ValidationUtility] (core/validation_utility.py)

    The element classes and the card validator come from the third-party
    package [adaptive_cards]; the element classes are modelled as records of
    the keyword arguments the toolkit passes (a field left out of a
    constructor call is [None]), the validator as an interface. *)

From Stdlib Require Import List String Ascii Bool Arith ZArith Lia.
From Stdlib Require Import Permutation DecimalString.
From Stdlib Require Import Floats.SpecFloat.
Import ListNotations.
Open Scope string_scope.

Set Warnings "-register-all".

(** ** Python runtime values *)

Module Py.

(** Exceptions that the modelled code can raise. *)
Inductive exn := IndexError.

(** A call either returns a value or raises. *)
Inductive outcome (A : Type) :=
| Returned (a : A)
| Raised (e : exn).
Arguments Returned {A} a.
Arguments Raised {A} e.

Definition bind {A B} (m : outcome A) (k : A -> outcome B) : outcome B :=
  match m with
  | Returned a => k a
  | Raised e => Raised e
  end.

(** Python [float]: IEEE 754 binary64. *)
Definition prec : Z := 53.
Definition emax : Z := 1024.
Definition float := spec_float.

(** Conversion of an [int] operand in mixed arithmetic. *)
Definition float_of_int (n : Z) : float := binary_normalize prec emax n 0 false.

Definition fmul (x y : float) : float := SFmul prec emax x y.
Definition fdiv (x y : float) : float := SFdiv prec emax x y.
(** [x > y] and [x <= y]; both are [False] on a NaN. *)
Definition fgt (x y : float) : bool := SFltb y x.
Definition fle (x y : float) : bool := SFleb x y.

(** The literals [0.8] and [0.7]: the doubles nearest to 8/10 and 7/10. *)
Definition lit_0_8 : float :=
  Eval vm_compute in fdiv (float_of_int 8) (float_of_int 10).
Definition lit_0_7 : float :=
  Eval vm_compute in fdiv (float_of_int 7) (float_of_int 10).

(** [str(n)] for an [int]. *)
Definition str_of_int (n : Z) : string := NilZero.string_of_int (Z.to_int n).
Definition str_of_nat (n : nat) : string := str_of_int (Z.of_nat n).

(** [s.lower()] on the ASCII range; bytes above 127 are kept.  No non-ASCII
    character lower-cases to an ASCII letter of "teams", so the comparison
    [s.lower() == "teams"] is decided by this function. *)
Definition lower_ascii (c : ascii) : ascii :=
  let n := nat_of_ascii c in
  if Nat.leb 65 n && Nat.leb n 90 then ascii_of_nat (n + 32) else c.

Fixpoint lower (s : string) : string :=
  match s with
  | EmptyString => EmptyString
  | String c rest => String (lower_ascii c) (lower rest)
  end.

(** JSON-shaped Python values.  A [dict] keeps its insertion order, so it is
    an association list (keys pairwise distinct). *)
Inductive value :=
| VNone
| VBool (b : bool)
| VInt (n : Z)
| VFloat (f : float)
| VStr (s : string)
| VList (items : list value)
| VDict (entries : list (string * value)).

Definition is_dict (v : value) : bool :=
  match v with VDict _ => true | _ => false end.

Definition is_list (v : value) : bool :=
  match v with VList _ => true | _ => false end.

(** [d.keys()] and [d.get(key, default)]. *)
Definition dict_entries (v : value) : list (string * value) :=
  match v with VDict d => d | _ => [] end.

Definition keys (v : value) : list string := map fst (dict_entries v).

Fixpoint lookup (key : string) (d : list (string * value)) : option value :=
  match d with
  | [] => None
  | (k, v) :: rest => if String.eqb k key then Some v else lookup key rest
  end.

Definition get (v : value) (key : string) (default : value) : value :=
  match lookup key (dict_entries v) with
  | Some x => x
  | None => default
  end.

End Py.

Notation "x <- m ;; k" := (Py.bind m (fun x => k))
  (at level 61, m at next level, right associativity).

(** ** adaptive_cards.card_types *)

Module types.

Inductive FontSize :=
| FontSize_DEFAULT | FontSize_SMALL | FontSize_MEDIUM
| FontSize_LARGE | FontSize_EXTRA_LARGE.

Inductive FontWeight :=
| FontWeight_DEFAULT | FontWeight_LIGHTER | FontWeight_BOLDER.

Inductive Colors :=
| Colors_DEFAULT | Colors_DARK | Colors_LIGHT | Colors_ACCENT
| Colors_GOOD | Colors_WARNING | Colors_ATTENTION.

Inductive ContainerStyle :=
| ContainerStyle_DEFAULT | ContainerStyle_EMPHASIS | ContainerStyle_GOOD
| ContainerStyle_ATTENTION | ContainerStyle_WARNING | ContainerStyle_ACCENT.

Inductive Spacing :=
| Spacing_DEFAULT | Spacing_NONE | Spacing_SMALL | Spacing_MEDIUM
| Spacing_LARGE | Spacing_EXTRA_LARGE | Spacing_PADDING.

Inductive VerticalAlignment :=
| VerticalAlignment_TOP | VerticalAlignment_CENTER | VerticalAlignment_BOTTOM.

Inductive ImageSize :=
| ImageSize_AUTO | ImageSize_STRETCH | ImageSize_SMALL
| ImageSize_MEDIUM | ImageSize_LARGE.

Inductive ImageStyle := ImageStyle_DEFAULT | ImageStyle_PERSON.

End types.

(** ** adaptive_cards elements and containers *)

(** [Union[int, str]] column width. *)
Inductive Width :=
| WInt (n : Z)
| WStr (s : string).

Record TextBlock := {
  tb_text : string;
  tb_size : option types.FontSize;
  tb_weight : option types.FontWeight;
  tb_color : option types.Colors;
  tb_wrap : option bool;
  tb_is_subtle : option bool;
  tb_id : option string
}.

Record Image := {
  img_url : string;
  img_alt_text : option string;
  img_size : option types.ImageSize;
  img_style : option types.ImageStyle;
  img_id : option string
}.

Record Fact := { fact_title : string; fact_value : string }.

Record InputChoice := { choice_title : string; choice_value : string }.

Record InputText := {
  it_id : string;
  it_placeholder : option string;
  it_is_required : bool;
  it_max_length : option Z
}.

Record InputDate := {
  idt_id : string;
  idt_placeholder : option string;
  idt_is_required : bool
}.

Record InputChoiceSet := {
  ics_id : string;
  ics_choices : list InputChoice;
  ics_placeholder : option string;
  ics_is_required : bool;
  ics_is_multi_select : bool
}.

Inductive Element :=
| ETextBlock (t : TextBlock)
| EImage (i : Image)
| Container (items : list Element)
            (style : option types.ContainerStyle)
            (spacing : option types.Spacing)
            (separator : option bool)
            (bleed : option bool)
            (id : option string)
| ColumnSet (columns : list Column)
            (spacing : option types.Spacing)
            (separator : option bool)
            (id : option string)
| FactSet (facts : list Fact) (id : option string)
| EInputText (i : InputText)
| EInputDate (i : InputDate)
| EInputChoiceSet (i : InputChoiceSet)
with Column :=
| MkColumn (items : list Element)
           (width : option Width)
           (spacing : option types.Spacing)
           (vertical_content_alignment : option types.VerticalAlignment)
           (style : option types.ContainerStyle).

(** Attribute access on a body item. *)
Definition element_id (e : Element) : option string :=
  match e with
  | ETextBlock t => tb_id t
  | EImage i => img_id i
  | Container _ _ _ _ _ id => id
  | ColumnSet _ _ _ id => id
  | FactSet _ id => id
  | EInputText i => Some (it_id i)
  | EInputDate i => Some (idt_id i)
  | EInputChoiceSet i => Some (ics_id i)
  end.

(** [hasattr(item, "url")] and [hasattr(item, "items")]. *)
Definition has_url (e : Element) : bool :=
  match e with EImage _ => true | _ => false end.

Definition has_items (e : Element) : bool :=
  match e with Container _ _ _ _ _ _ => true | _ => false end.

Definition container_style (e : Element) : option types.ContainerStyle :=
  match e with Container _ style _ _ _ _ => style | _ => None end.

Definition is_container (e : Element) : bool := has_items e.

Definition container_items (e : Element) : list Element :=
  match e with Container items _ _ _ _ _ => items | _ => [] end.

Definition container_spacing (e : Element) : option types.Spacing :=
  match e with Container _ _ spacing _ _ _ => spacing | _ => None end.

Definition container_separator (e : Element) : option bool :=
  match e with Container _ _ _ separator _ _ => separator | _ => None end.

Definition container_bleed (e : Element) : option bool :=
  match e with Container _ _ _ _ bleed _ => bleed | _ => None end.

(** The columns of a table row: a container holding one column set. *)
Definition row_columns_of (e : Element) : option (list Column) :=
  match e with
  | Container [ColumnSet columns _ _ _] _ _ _ _ _ => Some columns
  | _ => None
  end.

Definition column_items (c : Column) : list Element :=
  match c with MkColumn items _ _ _ _ => items end.

Definition column_width (c : Column) : option Width :=
  match c with MkColumn _ width _ _ _ => width end.

(** ** core/element_factory.py *)

Module ElementFactory.

(** [sizes.get(level, types.FontSize.MEDIUM)] *)
Definition sizes (level : Z) : option types.FontSize :=
  if Z.eqb level 1 then Some types.FontSize_EXTRA_LARGE
  else if Z.eqb level 2 then Some types.FontSize_LARGE
  else if Z.eqb level 3 then Some types.FontSize_MEDIUM
  else None.

Definition create_heading (text : string) (level : Z) : TextBlock :=
  let size := match sizes level with
              | Some s => s
              | None => types.FontSize_MEDIUM
              end in
  {| tb_text := text;
     tb_size := Some size;
     tb_weight := Some types.FontWeight_BOLDER;
     tb_color := None;
     tb_wrap := Some true;
     tb_is_subtle := None;
     tb_id := None |}.

Definition create_text (text : string) (is_subtle : bool)
    (weight : option types.FontWeight) (color : option types.Colors)
    : TextBlock :=
  {| tb_text := text;
     tb_size := None;
     tb_weight := weight;
     tb_color := color;
     tb_wrap := Some true;
     tb_is_subtle := Some is_subtle;
     tb_id := None |}.

End ElementFactory.

(** ** core/layout_helper.py *)

Module LayoutHelper.

Definition create_container (items : list Element)
    (style : option types.ContainerStyle) (spacing : option types.Spacing)
    (separator : bool) (id : option string) : Element :=
  Container items style spacing (Some separator) None id.

(** [if footer_items:] holds for a list that is present and not empty. *)
Definition footer_given (footer_items : option (list Element)) : bool :=
  match footer_items with
  | Some (_ :: _) => true
  | _ => false
  end.

Definition footer_list (footer_items : option (list Element)) : list Element :=
  match footer_items with Some l => l | None => [] end.

Definition create_header_body_footer_layout
    (header_items body_items : list Element)
    (footer_items : option (list Element))
    (header_style body_style footer_style : option types.ContainerStyle)
    : list Element :=
  let containers :=
    [ Container header_items header_style None None (Some true) None;
      Container body_items body_style (Some types.Spacing_MEDIUM) None None None ] in
  match footer_items with
  | Some (f :: fs) =>
      containers ++
        [ Container (f :: fs) footer_style (Some types.Spacing_MEDIUM)
            (Some true) None None ]
  | _ => containers
  end.

End LayoutHelper.

(** ** core/data_connector.py *)

Module DataConnector.

Definition create_fact_set (facts : list (string * string)) : Element :=
  FactSet (map (fun kv => {| fact_title := fst kv; fact_value := snd kv |}) facts)
          None.

(** The bullet prefix, byte for byte as the source file has it. *)
Definition bullet_prefix : string :=
  String (ascii_of_nat 195) (String (ascii_of_nat 162)
 (String (ascii_of_nat 226) (String (ascii_of_nat 130)
 (String (ascii_of_nat 172) (String (ascii_of_nat 194)
 (String (ascii_of_nat 162) " ")))))).

(** [for i, item in enumerate(items, 1)] *)
Fixpoint create_list_from (i : nat) (items : list string) (is_numbered : bool)
    : list Element :=
  match items with
  | [] => []
  | item :: rest =>
      let prefix :=
        if is_numbered then Py.str_of_nat i ++ ". " else bullet_prefix in
      ETextBlock {| tb_text := prefix ++ item;
                    tb_size := None; tb_weight := None; tb_color := None;
                    tb_wrap := Some true; tb_is_subtle := None;
                    tb_id := None |}
      :: create_list_from (S i) rest is_numbered
  end.

Definition create_list (items : list string) (is_numbered : bool)
    : list Element :=
  create_list_from 1 items is_numbered.

(** *** create_table *)

Definition text_cell (cell : string) (weight : option types.FontWeight)
    : list Element :=
  [ETextBlock (ElementFactory.create_text cell false weight None)].

(** The header loop: [column_widths[i]] raises when [i] is out of range. *)
Fixpoint header_columns_from (column_widths : list Width) (i : nat)
    (headers : list string) : Py.outcome (list Column) :=
  match headers with
  | [] => Py.Returned []
  | header :: rest =>
      match nth_error column_widths i with
      | None => Py.Raised Py.IndexError
      | Some w =>
          cols <- header_columns_from column_widths (S i) rest ;;
          Py.Returned
            (MkColumn (text_cell header (Some types.FontWeight_BOLDER))
                      (Some w) None None None :: cols)
      end
  end.

(** The cell loop of one row, guarded by [col_idx < len(column_widths)]. *)
Fixpoint row_columns_from (column_widths : list Width) (col_idx : nat)
    (row : list string) : list Column :=
  match row with
  | [] => []
  | cell :: rest =>
      (if Nat.ltb col_idx (List.length column_widths)
       then [MkColumn (text_cell cell None)
                      (Some (nth col_idx column_widths (WInt 1)))
                      None None None]
       else [])
      ++ row_columns_from column_widths (S col_idx) rest
  end.

Definition row_style (alternate_row_style : bool) (row_idx : nat)
    : option types.ContainerStyle :=
  if alternate_row_style && Nat.eqb (Nat.modulo row_idx 2) 1
  then Some types.ContainerStyle_ACCENT
  else None.

(** The row loop: [for row_idx, row in enumerate(rows)] *)
Fixpoint data_rows_from (column_widths : list Width)
    (alternate_row_style : bool) (row_idx : nat) (rows : list (list string))
    : list Element :=
  match rows with
  | [] => []
  | row :: rest =>
      Container [ColumnSet (row_columns_from column_widths 0 row) None None None]
                (row_style alternate_row_style row_idx) None None None None
      :: data_rows_from column_widths alternate_row_style (S row_idx) rest
  end.

Definition resolve_widths (headers : list string)
    (column_widths : option (list Width)) : list Width :=
  match column_widths with
  | None => repeat (WInt 1) (List.length headers)
  | Some ws => ws
  end.

Definition create_table (headers : list string) (rows : list (list string))
    (column_widths : option (list Width))
    (has_header_row alternate_row_style : bool)
    : Py.outcome (list Element) :=
  let column_widths := resolve_widths headers column_widths in
  header_part <-
    (if has_header_row then
       header_columns <- header_columns_from column_widths 0 headers ;;
       Py.Returned
         [Container [ColumnSet header_columns None None None]
                    (Some types.ContainerStyle_EMPHASIS) None (Some true)
                    None None]
     else Py.Returned []) ;;
  Py.Returned
    (header_part ++ data_rows_from column_widths alternate_row_style 0 rows)%list.

(** Position of data row [k] in the returned list. *)
Definition header_offset (has_header_row : bool) : nat :=
  if has_header_row then 1 else 0.

(** The call returns unless the header loop runs past the widths. *)
Definition widths_cover_headers (headers : list string)
    (column_widths : option (list Width)) (has_header_row : bool) : Prop :=
  has_header_row = true ->
  List.length headers <= List.length (resolve_widths headers column_widths).

(** One data cell, and one header cell, with its width. *)
Definition data_column (cw : string * Width) : Column :=
  MkColumn (text_cell (fst cw) None) (Some (snd cw)) None None None.

Definition header_column (hw : string * Width) : Column :=
  MkColumn (text_cell (fst hw) (Some types.FontWeight_BOLDER))
           (Some (snd hw)) None None None.

(** *** from_json *)

Section FromJson.

(** Library functions the method calls. *)
Variable json_loads : string -> option Py.value.
Variable json_dumps_indent2 : Py.value -> string.
Variable float_repr : Py.float -> string.
Variable container_repr : Py.value -> string.

(** [list(s)] for the [set] that received these keys in this order.
    CPython enumerates a set by hash-table slot; string hashes are
    salted per process, so the order is a parameter. *)
Variable list_of_set : list string -> list string.

(** What the language guarantees of it: every member once, nothing else. *)
Definition set_listing_lawful : Prop :=
  forall added,
    NoDup (list_of_set added) /\
    (forall k, In k (list_of_set added) <-> In k added).

(** [str(v)] *)
Definition str (v : Py.value) : string :=
  match v with
  | Py.VNone => "None"
  | Py.VBool true => "True"
  | Py.VBool false => "False"
  | Py.VInt n => Py.str_of_int n
  | Py.VFloat f => float_repr f
  | Py.VStr s => s
  | Py.VList _ | Py.VDict _ => container_repr v
  end.

(** [all_keys] after the loop [all_keys.update(item.keys())]. *)
Definition all_keys_added (data : list Py.value) : list string :=
  flat_map Py.keys data.

Definition table_headers (data : list Py.value) : list string :=
  list_of_set (all_keys_added data).

Definition table_rows (headers : list string) (data : list Py.value)
    : list (list string) :=
  map (fun item => map (fun key => str (Py.get item key (Py.VStr ""))) headers)
      data.

Definition invalid_json : list Element :=
  [ETextBlock (ElementFactory.create_text "Invalid JSON data" false None
                 (Some types.Colors_ATTENTION))].

(** The dispatch on the parsed value. *)
Definition elements_of_data (data : Py.value) : Py.outcome (list Element) :=
  match data with
  | Py.VDict entries =>
      Py.Returned
        [create_fact_set
           (map (fun kv =>
                   (fst kv,
                    if Py.is_dict (snd kv) || Py.is_list (snd kv)
                    then json_dumps_indent2 (snd kv)
                    else str (snd kv)))
                entries)]
  | Py.VList items =>
      if negb (Nat.eqb (List.length items) 0) && forallb Py.is_dict items then
        let headers := table_headers items in
        let rows := table_rows headers items in
        create_table headers rows None true true
      else
        Py.Returned (create_list (map str items) false)
  | _ => Py.Returned []
  end.

(** [json.loads] when the argument is a [str], the argument otherwise;
    [None] stands for [JSONDecodeError].  An exception of another class
    has no outcome here: [DataConnectorCalls] has the method with
    library calls that can raise. *)
Definition parse_input (json_data : Py.value) : option Py.value :=
  match json_data with
  | Py.VStr s => json_loads s
  | _ => Some json_data
  end.

Definition from_json (json_data : Py.value) : Py.outcome (list Element) :=
  match parse_input json_data with
  | None => Py.Returned invalid_json
  | Some data => elements_of_data data
  end.

End FromJson.

(** The first-seen union of keys: scan the records in order and each
    record's keys in iteration order, keeping a key at its first
    occurrence. *)
Fixpoint first_seen (seen : list string) (ks : list string) : list string :=
  match ks with
  | [] => []
  | k :: rest =>
      if in_dec string_dec k seen then first_seen seen rest
      else k :: first_seen (k :: seen) rest
  end.

Definition first_seen_union (data : list Py.value) : list string :=
  first_seen [] (flat_map Py.keys data).

(** The texts of a table's header row. *)
Definition column_text (c : Column) : option string :=
  match column_items c with
  | [ETextBlock t] => Some (tb_text t)
  | _ => None
  end.

Fixpoint all_some {A} (l : list (option A)) : option (list A) :=
  match l with
  | [] => Some []
  | None :: _ => None
  | Some a :: rest =>
      match all_some rest with
      | Some r => Some (a :: r)
      | None => None
      end
  end.

Definition row_texts (e : Element) : option (list string) :=
  match row_columns_of e with
  | Some cols => all_some (map column_text cols)
  | None => None
  end.

Definition header_texts (table : list Element) : option (list string) :=
  match table with
  | e :: _ => row_texts e
  | [] => None
  end.

End DataConnector.

(** ** adaptive_cards.card and adaptive_cards.validation *)

Inductive Action :=
| ActionOpenUrl (title url : string)
| ActionSubmit (title : string) (data : Py.value).

Record AdaptiveCard := {
  version : string;
  body : option (list Element);
  actions : list Action
}.

(** [card.body or []] *)
Definition body_or_empty (card : AdaptiveCard) : list Element :=
  match body card with
  | Some items => items
  | None => []
  end.

Module validation.

Inductive Result := SUCCESS | FAILURE.

Inductive ValidationFailure :=
| EMPTY_CARD
| INVALID_FIELD_VERSION
| SIZE_LIMIT_EXCEEDED.

Record Finding := { failure : ValidationFailure; message : string }.

Definition failure_eqb (a b : ValidationFailure) : bool :=
  match a, b with
  | EMPTY_CARD, EMPTY_CARD
  | INVALID_FIELD_VERSION, INVALID_FIELD_VERSION
  | SIZE_LIMIT_EXCEEDED, SIZE_LIMIT_EXCEEDED => true
  | _, _ => false
  end.

(** The interface of [CardValidator] that the toolkit uses.  The object is
    stateful: [validate] and [card_size] may update it, [details] reads the
    findings it holds. *)
Record CardValidator := {
  state : Type;
  validate : state -> AdaptiveCard -> state * Result;
  card_size : state -> AdaptiveCard -> state * Py.float;
  details : state -> list Finding
}.

End validation.

(** ** core/validation_utility.py *)

Module ValidationUtility.

Import validation.

Record report := {
  valid : bool;
  report_details : list ValidationFailure;
  size : Py.float;
  size_limit : Z;
  warnings : list string;
  suggestions : list string
}.

Definition empty_card_suggestion : string :=
  "Card body is empty. Add at least one element to the card.".

Definition version_suggestion (card_version : string) : string :=
  "Some elements or fields require a newer schema version than '"
  ++ card_version
  ++ "'. Consider upgrading the card version or removing incompatible elements.".

Definition size_limit_suggestions : list string :=
  [ "Card size exceeds the limit for the target platform.";
    "Consider reducing the number of elements or simplifying complex elements.";
    "Minimize the use of images or use lower resolution images.";
    "Break content into multiple smaller cards if possible." ].

Definition optimize_suggestion : string :=
  "Consider optimizing the card to reduce its size.".

Definition no_ids_warning : string :=
  "No elements have IDs, which may limit interactivity and accessibility.".

Definition reduce_elements_suggestion : string :=
  "Consider reducing the number of elements in the card.".

Definition images_suggestion (image_count : nat) : string :=
  "Card contains " ++ Py.str_of_nat image_count
  ++ " images. Consider reducing image count or size.".

Definition containers_suggestion (container_count : nat) : string :=
  "Card contains " ++ Py.str_of_nat container_count
  ++ " containers. Consider simplifying the structure.".

(** The loop [for finding in details] with its [if]/[elif] chain. *)
Fixpoint finding_suggestions (card_version : string) (findings : list Finding)
    : list string :=
  match findings with
  | [] => []
  | finding :: rest =>
      (match failure finding with
       | EMPTY_CARD => [empty_card_suggestion]
       | INVALID_FIELD_VERSION => [version_suggestion card_version]
       | SIZE_LIMIT_EXCEEDED => size_limit_suggestions
       end ++ finding_suggestions card_version rest)%list
  end.

(** [item.id] is truthy: present and not the empty string. *)
Definition has_truthy_id (item : Element) : bool :=
  match element_id item with
  | Some s => negb (String.eqb s "")
  | None => false
  end.

Definition result_is_success (r : Result) : bool :=
  match r with SUCCESS => true | FAILURE => false end.

Section WithValidator.

Variable V : CardValidator.

(** [CardValidatorFactory.create_validator_microsoft_teams()] *)
Variable create_validator_microsoft_teams : state V.

(** The format specifications [:.2f] and [:.1f]. *)
Variable format_2f : Py.float -> string.
Variable format_1f : Py.float -> string.

Record t := { target : string; validator : state V }.

Definition init (target : string) : Py.outcome t :=
  if String.eqb (Py.lower target) "teams" then
    Py.Returned {| target := target;
                   validator := create_validator_microsoft_teams |}
  else
    Py.Returned {| target := target;
                   validator := create_validator_microsoft_teams |}.

(** [28 if self.target.lower() == "teams" else 40] *)
Definition target_size_limit (self : t) : Z :=
  if String.eqb (Py.lower (target self)) "teams" then 28 else 40.

Definition approaching_warning (card_size : Py.float) (limit : Z) : string :=
  "Card size (" ++ format_2f card_size ++ "KB) is approaching the limit ("
  ++ Py.str_of_int limit ++ "KB).".

Definition validate (self : t) (card : AdaptiveCard) : t * report :=
  let (v1, result) := validation.validate V (validator self) card in
  let (v2, card_size) := validation.card_size V v1 card in
  let details := validation.details V v2 in
  let size_limit := target_size_limit self in
  let suggestions := finding_suggestions (version card) details in
  let near_limit :=
    Py.fgt card_size (Py.fmul (Py.float_of_int size_limit) Py.lit_0_8)
    && Py.fle card_size (Py.float_of_int size_limit) in
  let warnings :=
    if near_limit then [approaching_warning card_size size_limit] else [] in
  let suggestions :=
    if near_limit then (suggestions ++ [optimize_suggestion])%list
    else suggestions in
  let warnings :=
    if negb (existsb has_truthy_id (body_or_empty card))
    then (warnings ++ [no_ids_warning])%list
    else warnings in
  ({| target := target self; validator := v2 |},
   {| valid := result_is_success result;
      report_details := map failure details;
      size := card_size;
      size_limit := size_limit;
      warnings := warnings;
      suggestions := suggestions |}).

Definition get_size (self : t) (card : AdaptiveCard) : t * Py.float :=
  let (v1, card_size) := validation.card_size V (validator self) card in
  ({| target := target self; validator := v1 |}, card_size).

Definition size_summary (card_size : Py.float) (limit : Z) : string :=
  "Card size (" ++ format_2f card_size ++ "KB) is "
  ++ format_1f (Py.fmul (Py.fdiv card_size (Py.float_of_int limit))
                        (Py.float_of_int 100))
  ++ "% of the limit.".

Definition suggest_optimizations (self : t) (card : AdaptiveCard)
    : t * list string :=
  let (v1, card_size) := validation.card_size V (validator self) card in
  let size_limit := target_size_limit self in
  let items := body_or_empty card in
  let suggestions :=
    if Py.fgt card_size (Py.fmul (Py.float_of_int size_limit) Py.lit_0_7)
    then
      let image_count := List.length (filter has_url items) in
      let container_count := List.length (filter has_items items) in
      ([size_summary card_size size_limit]
       ++ (if Nat.ltb 10 (List.length items)
           then [reduce_elements_suggestion] else [])
       ++ (if Nat.ltb 0 image_count
           then [images_suggestion image_count] else [])
       ++ (if Nat.ltb 3 container_count
           then [containers_suggestion container_count] else []))%list
    else [] in
  ({| target := target self; validator := v1 |}, suggestions).

End WithValidator.

Arguments target {V} _.
Arguments validator {V} _.

End ValidationUtility.

(** ** A reference card validator *)

Module TeamsValidator.

Import validation.

(** Every element of a tree, parents before children. *)
Fixpoint subelements (e : Element) : list Element :=
  e :: match e with
       | Container items _ _ _ _ _ => flat_map subelements items
       | ColumnSet columns _ _ _ =>
           flat_map (fun c => match c with
                              | MkColumn items _ _ _ _ =>
                                  flat_map subelements items
                              end) columns
       | _ => []
       end.

(** The [type] tag of the serialized element. *)
Definition element_type (e : Element) : string :=
  match e with
  | ETextBlock _ => "TextBlock"
  | EImage _ => "Image"
  | Container _ _ _ _ _ _ => "Container"
  | ColumnSet _ _ _ _ => "ColumnSet"
  | FactSet _ _ => "FactSet"
  | EInputText _ => "Input.Text"
  | EInputDate _ => "Input.Date"
  | EInputChoiceSet _ => "Input.ChoiceSet"
  end.

Definition teams_size_limit_kb : Z := 28.

Section Rules.

(** Size in KB of the serialized card. *)
Variable serialized_size_kb : AdaptiveCard -> Py.float.

(** Whether an element needs a schema version above the card's. *)
Variable requires_newer_schema : string -> Element -> bool.

Definition structural_check (card : AdaptiveCard) : list Finding :=
  match body_or_empty card with
  | [] => [{| failure := EMPTY_CARD; message := "card body is empty" |}]
  | _ => []
  end.

Definition schema_check (card : AdaptiveCard) : list Finding :=
  let offending :=
    filter (requires_newer_schema (version card))
           (flat_map subelements (body_or_empty card)) in
  map (fun ty => {| failure := INVALID_FIELD_VERSION; message := ty |})
      (nodup string_dec (map element_type offending)).

Definition size_check (card : AdaptiveCard) : list Finding :=
  if Py.fgt (serialized_size_kb card) (Py.float_of_int teams_size_limit_kb)
  then [{| failure := SIZE_LIMIT_EXCEEDED; message := "card size exceeds limit" |}]
  else [].

Definition findings_of (card : AdaptiveCard) : list Finding :=
  (structural_check card ++ schema_check card ++ size_check card)%list.

(** Modelled from the spec: the rule evaluation of the third-party card
    validator for the "teams" profile (structural check, schema check,
    size check, in this order; the report is a function of the card).
    The state is the list of findings of the latest [validate] call. *)
Definition teams_validator : CardValidator :=
  {| state := list Finding;
     validate := fun _ card =>
       let fs := findings_of card in
       (fs, match fs with [] => SUCCESS | _ => FAILURE end);
     card_size := fun st card => (st, serialized_size_kb card);
     details := fun st => st |}.

Definition create_validator_microsoft_teams : state teams_validator := [].

End Rules.

End TeamsValidator.

(** ** Contracts of the external validator *)

Module Contract.

Import validation.

Section Contract.

Variable V : CardValidator.

(** One use of the validator by [ValidationUtility.validate]:
    [validate], then [card_size], then [details]. *)
Definition run (st : state V) (card : AdaptiveCard)
    : state V * (Result * Py.float * list Finding) :=
  let (v1, result) := validate V st card in
  let (v2, sz) := card_size V v1 card in
  (v2, (result, sz, details V v2)).

(** The validator starts every [validate] afresh: what a run reports
    depends on the card, not on the state left by earlier calls. *)
Definition resets_per_call : Prop :=
  forall st st' card, snd (run st card) = snd (run st' card).

Definition count_failure (f : ValidationFailure) (fs : list Finding) : nat :=
  List.length (filter (fun x => failure_eqb (failure x) f) fs).

(** Modelled from the spec: the size check of the third-party card
    validator, which is not part of the toolkit's sources; under the
    "teams" profile it reports one [SIZE_LIMIT_EXCEEDED] finding exactly
    when the measured size is above 28 KB. *)
Definition teams_size_rule : Prop :=
  forall st card,
    let '(_, (_, sz, fs)) := run st card in
    count_failure SIZE_LIMIT_EXCEEDED fs =
      if Py.fgt sz (Py.float_of_int TeamsValidator.teams_size_limit_kb)
      then 1 else 0.

End Contract.

End Contract.

(** ** Sample instances of the library parameters, for running the model *)

Module Sample.

(** A decoder for the JSON literals and for one-digit numbers. *)
Definition json_loads (s : string) : option Py.value :=
  if String.eqb s "null" then Some Py.VNone
  else if String.eqb s "true" then Some (Py.VBool true)
  else if String.eqb s "false" then Some (Py.VBool false)
  else match s with
       | String c EmptyString =>
           let n := nat_of_ascii c in
           if Nat.leb 48 n && Nat.leb n 57
           then Some (Py.VInt (Z.of_nat (n - 48)))
           else None
       | _ => None
       end.

Definition json_dumps_indent2 (v : Py.value) : string :=
  match v with
  | Py.VList [] => "[]"
  | Py.VDict [] => "{}"
  | _ => "..."
  end.

Definition float_repr (f : Py.float) : string :=
  match f with
  | S754_zero false => "0.0"
  | S754_zero true => "-0.0"
  | S754_infinity false => "inf"
  | S754_infinity true => "-inf"
  | S754_nan => "nan"
  | S754_finite _ _ _ => "..."
  end.

Definition container_repr (v : Py.value) : string :=
  match v with
  | Py.VList [] => "[]"
  | Py.VDict [] => "{}"
  | _ => "..."
  end.

(** A set that lists its members latest first. *)
Definition list_of_set (added : list string) : list string :=
  rev (DataConnector.first_seen [] added).

(** A set that lists its members in order of first insertion. *)
Definition list_of_set_fifo (added : list string) : list string :=
  DataConnector.first_seen [] added.

(** A stand-in for the format specifications: it names the special
    values and elides the digits of the others. *)
Definition format_float (f : Py.float) : string := float_repr f.

Definition never_newer (_ : string) (_ : Element) : bool := false.

Definition note (s : string) : Element :=
  ETextBlock (ElementFactory.create_text s false None None).

Definition picture (url : string) : Element :=
  EImage {| img_url := url; img_alt_text := None; img_size := None;
            img_style := None; img_id := None |}.

Definition card_of (items : list Element) : AdaptiveCard :=
  {| version := "1.5"; body := Some items; actions := [] |}.

(** A size measure of three kilobytes per top-level element. *)
Definition three_kb_per_item (card : AdaptiveCard) : Py.float :=
  Py.float_of_int (3 * Z.of_nat (List.length (body_or_empty card))).

Definition validator : validation.CardValidator :=
  TeamsValidator.teams_validator three_kb_per_item never_newer.

Definition utility (target : string) : ValidationUtility.t validator :=
  {| ValidationUtility.target := target;
     ValidationUtility.validator :=
       TeamsValidator.create_validator_microsoft_teams
         three_kb_per_item never_newer |}.

Definition notes (n : nat) : list Element := repeat (note "line") n.

End Sample.

(** ** The specification's own wording of some rules *)

Module SpecWords.

(** Heading sizes: 1 is extra-large, 2 is large, 3 is medium, any level
    outside 1..3 is medium. *)
Definition heading_size_spec (level : Z) : types.FontSize :=
  match level with
  | 1%Z => types.FontSize_EXTRA_LARGE
  | 2%Z => types.FontSize_LARGE
  | 3%Z => types.FontSize_MEDIUM
  | _ => types.FontSize_MEDIUM
  end.

End SpecWords.

(** ** Reading a validation report *)

Module Reading.

(** The suggestions that concern the card's size. *)
Definition size_related (s : string) : bool :=
  existsb (String.eqb s)
          (ValidationUtility.size_limit_suggestions
           ++ [ValidationUtility.optimize_suggestion])%list.

End Reading.

(** * The rest of the toolkit *)

(** ** Exceptions with a payload *)

Module Raise.

Inductive error :=
| KeyError (key : string)
| ValueError (message : string)
| Uncaught (e : Py.exn).

Inductive result (A : Type) :=
| Ok (a : A)
| Error (e : error).
Arguments Ok {A} a.
Arguments Error {A} e.

Definition and_then {A B} (m : result A) (k : A -> result B) : result B :=
  match m with
  | Ok a => k a
  | Error e => Error e
  end.

(** [d[key]] on a dictionary with [str] values. *)
Fixpoint item (d : list (string * string)) (key : string) : result string :=
  match d with
  | [] => Error (KeyError key)
  | (k, v) :: rest => if String.eqb k key then Ok v else item rest key
  end.

(** [str(e)] for the exceptions of [Py.exn]. *)
Definition exn_str (e : Py.exn) : string :=
  match e with
  | Py.IndexError => "list index out of range"
  end.

(** Truth value of an [Optional[str]] argument. *)
Definition truthy (s : option string) : bool :=
  match s with
  | Some x => negb (String.eqb x "")
  | None => false
  end.

End Raise.

(** ** core/element_factory.py, continued *)

Module ElementFactoryInputs.

Import Raise.

Definition create_important_text (text : string) (color : types.Colors)
    : TextBlock :=
  {| tb_text := text;
     tb_size := None;
     tb_weight := Some types.FontWeight_BOLDER;
     tb_color := Some color;
     tb_wrap := Some true;
     tb_is_subtle := None;
     tb_id := None |}.

Definition create_image (url : string) (alt_text : option string)
    (size : option types.ImageSize) (style : option types.ImageStyle)
    : Image :=
  {| img_url := url; img_alt_text := alt_text; img_size := size;
     img_style := style; img_id := None |}.

Definition create_text_input (id : string) (placeholder : option string)
    (is_required : bool) (max_length : option Z) : InputText :=
  {| it_id := id; it_placeholder := placeholder;
     it_is_required := is_required; it_max_length := max_length |}.

Definition create_date_input (id : string) (placeholder : option string)
    (is_required : bool) : InputDate :=
  {| idt_id := id; idt_placeholder := placeholder;
     idt_is_required := is_required |}.

(** [Union[InputChoice, dict]] *)
Inductive choice_arg :=
| ChoiceObject (c : InputChoice)
| ChoiceDict (d : list (string * string)).

(** The conversion loop; in the constructor call [choice["title"]] is
    read before [choice["value"]]. *)
Fixpoint choice_objects (choices : list choice_arg)
    : result (list InputChoice) :=
  match choices with
  | [] => Ok []
  | ChoiceObject c :: rest =>
      and_then (choice_objects rest) (fun cs => Ok (c :: cs))
  | ChoiceDict d :: rest =>
      and_then (item d "title") (fun title =>
      and_then (item d "value") (fun value =>
      and_then (choice_objects rest) (fun cs =>
      Ok ({| choice_title := title; choice_value := value |} :: cs))))
  end.

Definition create_choice_set (id : string) (choices : list choice_arg)
    (placeholder : option string) (is_required is_multi_select : bool)
    : result InputChoiceSet :=
  and_then (choice_objects choices) (fun objects =>
  Ok {| ics_id := id; ics_choices := objects;
        ics_placeholder := placeholder; ics_is_required := is_required;
        ics_is_multi_select := is_multi_select |}).

(** A dictionary that the conversion accepts. *)
Definition well_keyed (c : choice_arg) : Prop :=
  match c with
  | ChoiceObject _ => True
  | ChoiceDict d => (exists t, item d "title" = Ok t) /\
                    (exists v, item d "value" = Ok v)
  end.

(** What the caller meant by an argument that is well keyed. *)
Definition intended (c : choice_arg) : option InputChoice :=
  match c with
  | ChoiceObject o => Some o
  | ChoiceDict d =>
      match item d "title", item d "value" with
      | Ok t, Ok v => Some {| choice_title := t; choice_value := v |}
      | _, _ => None
      end
  end.

End ElementFactoryInputs.

(** ** core/layout_helper.py, continued *)

Module LayoutHelperColumns.

Definition create_column_set (columns : list Column)
    (spacing : option types.Spacing) (separator : bool) (id : option string)
    : Element :=
  ColumnSet columns spacing (Some separator) id.

Definition create_column (items : list Element) (width : Width)
    (spacing : option types.Spacing)
    (vertical_content_alignment : option types.VerticalAlignment)
    (style : option types.ContainerStyle) : Column :=
  MkColumn items (Some width) spacing vertical_content_alignment style.

(** The loop [for content in column_contents]. *)
Fixpoint equal_columns (column_contents : list (list Element)) : list Column :=
  match column_contents with
  | [] => []
  | content :: rest =>
      MkColumn content (Some (WInt 1)) None None None :: equal_columns rest
  end.

Definition create_equal_columns (column_contents : list (list Element))
    (spacing : option types.Spacing) : Element :=
  create_column_set (equal_columns column_contents) spacing false None.

Definition create_two_column_layout (left_content right_content : list Element)
    (left_width right_width : Width) (spacing : option types.Spacing)
    : Element :=
  create_column_set
    [ MkColumn left_content (Some left_width) None None None;
      MkColumn right_content (Some right_width) None None None ]
    spacing false None.

Definition columns_of (e : Element) : list Column :=
  match e with ColumnSet columns _ _ _ => columns | _ => [] end.

End LayoutHelperColumns.

(** ** core/data_connector.py, continued *)

Module DataConnectorMore.

Import DataConnector.

Definition error_text (message : string) : list Element :=
  [ETextBlock (ElementFactory.create_text message false None
                 (Some types.Colors_ATTENTION))].

Section Csv.

(** [list(csv.reader(io.StringIO(csv_data)))]: the rows, or the text of
    the exception the reader raised. *)
Variable csv_rows : string -> string + list (list string).

Definition from_csv (csv_data : string) : list Element :=
  match csv_rows csv_data with
  | inl message => error_text ("Error parsing CSV: " ++ message)
  | inr [] => error_text "Empty CSV data"
  | inr (headers :: data_rows) =>
      match create_table headers data_rows None true true with
      | Py.Returned table => table
      | Py.Raised e => error_text ("Error parsing CSV: " ++ Raise.exn_str e)
      end
  end.

End Csv.

Section KeyValue.

Variable json_dumps_indent2 : Py.value -> string.
Variable float_repr : Py.float -> string.
Variable container_repr : Py.value -> string.

Definition key_item (key : string) : Element :=
  ETextBlock (ElementFactory.create_text key false
                (Some types.FontWeight_BOLDER) None).

Definition value_item (value : Py.value) : Element :=
  let value_str :=
    if Py.is_dict value || Py.is_list value
    then json_dumps_indent2 value
    else str float_repr container_repr value in
  ETextBlock (ElementFactory.create_text value_str false None None).

(** The loop [for key, value in data.items()], both lists at once. *)
Fixpoint key_value_items (data : list (string * Py.value))
    : list Element * list Element :=
  match data with
  | [] => ([], [])
  | (key, value) :: rest =>
      let (ks, vs) := key_value_items rest in
      (key_item key :: ks, value_item value :: vs)
  end.

Definition key_value_pairs_to_columns (data : list (string * Py.value))
    (key_width value_width : Width) : Element :=
  let (key_column_items, value_column_items) := key_value_items data in
  ColumnSet
    [ MkColumn key_column_items (Some key_width) None None None;
      MkColumn value_column_items (Some value_width) None None None ]
    None None None.

End KeyValue.

Definition element_text (e : Element) : option string :=
  match e with ETextBlock t => Some (tb_text t) | _ => None end.

Definition facts_of (e : Element) : list Fact :=
  match e with FactSet facts _ => facts | _ => [] end.

End DataConnectorMore.

(** ** core/card_builder.py *)

Module AgentCardBuilder.

Import Raise validation.


Definition key (name : string) (field : option string) : result string :=
  match field with
  | Some v => Ok v
  | None => Error (KeyError name)
  end.

Definition basic_body (title message : string) (image_url : option string)
    : list Element :=
  ([ ETextBlock {| tb_text := title;
                   tb_size := Some types.FontSize_LARGE;
                   tb_weight := Some types.FontWeight_BOLDER;
                   tb_color := None; tb_wrap := None;
                   tb_is_subtle := None; tb_id := None |};
     ETextBlock {| tb_text := message;
                   tb_size := None; tb_weight := None; tb_color := None;
                   tb_wrap := Some true;
                   tb_is_subtle := None; tb_id := None |} ]
   ++ match image_url with
      | Some url =>
          if truthy image_url
          then [EImage {| img_url := url; img_alt_text := None;
                          img_size := None; img_style := None;
                          img_id := None |}]
          else []
      | None => []
      end)%list.

Definition create_basic_card (self_version : string)
    (title message : string) (image_url : option string) : AdaptiveCard :=
  {| version := self_version;
     body := Some (basic_body title message image_url);
     actions := [] |}.






Record card_report := {
  cr_valid : bool;
  cr_details : list ValidationFailure;
  cr_size : Py.float
}.

Section WithValidator.

Variable V : CardValidator.

Record t := { builder_version : string; builder_validator : state V }.

Definition validate_card (self : t) (card : AdaptiveCard) : t * card_report :=
  let (v1, result) := validation.validate V (builder_validator self) card in
  let (v2, card_size) := validation.card_size V v1 card in
  ({| builder_version := builder_version self; builder_validator := v2 |},
   {| cr_valid := ValidationUtility.result_is_success result;
      cr_details := map failure (validation.details V v2);
      cr_size := card_size |}).

End WithValidator.

Arguments builder_version {V} _.
Arguments builder_validator {V} _.

End AgentCardBuilder.

(** ** core/data_connector.py: [from_json] with library calls that can raise *)

Module DataConnectorCalls.

Import DataConnector.

(** What a library call answers: a value, or an exception of some class
    ([RecursionError], [ValueError], [TypeError], ...). *)
Inductive answer (A : Type) :=
| Gives (a : A)
| Throws (class : string).
Arguments Gives {A} a.
Arguments Throws {A} class.

(** [json.loads(s)].  [JSONDecodeError] is the one class that [from_json]
    catches; [LoadsRaises] is any exception outside that class, such as
    the [RecursionError] for deeply nested text or the plain [ValueError]
    for an integer literal beyond the digit limit. *)
Inductive loaded :=
| Decoded (data : Py.value)
| JSONDecodeError
| LoadsRaises (class : string).

(** An exception that leaves a method of the toolkit: one that the
    toolkit's own code raised, or one that came out of a library call. *)
Inductive exception :=
| Own (e : Py.exn)
| Library (class : string).

Inductive call (A : Type) :=
| Returns (a : A)
| Raises (e : exception).
Arguments Returns {A} a.
Arguments Raises {A} e.

Definition of_outcome {A} (m : Py.outcome A) : call A :=
  match m with
  | Py.Returned a => Returns a
  | Py.Raised e => Raises (Own e)
  end.

(** A comprehension [[f(x) for x in xs]]: the calls are made in order and
    the first exception ends it. *)
Fixpoint each {A B} (f : A -> answer B) (xs : list A) : answer (list B) :=
  match xs with
  | [] => Gives []
  | x :: rest =>
      match f x with
      | Throws class => Throws class
      | Gives y =>
          match each f rest with
          | Throws class => Throws class
          | Gives ys => Gives (y :: ys)
          end
      end
  end.

Section FromJson.

Variable json_loads : string -> loaded.
Variable json_dumps_indent2 : Py.value -> answer string.
(** [str(n)] for an [int]: [ValueError] beyond the digit limit. *)
Variable int_str : Z -> answer string.
Variable float_repr : Py.float -> string.
(** [str(v)] for a [list] or [dict]: [RecursionError] when nested too
    deeply. *)
Variable container_repr : Py.value -> answer string.
Variable list_of_set : list string -> list string.

(** [str(v)] *)
Definition str (v : Py.value) : answer string :=
  match v with
  | Py.VNone => Gives "None"
  | Py.VBool true => Gives "True"
  | Py.VBool false => Gives "False"
  | Py.VInt n => int_str n
  | Py.VFloat f => Gives (float_repr f)
  | Py.VStr s => Gives s
  | Py.VList _ | Py.VDict _ => container_repr v
  end.

(** [str(v) if not isinstance(v, (dict, list)) else json.dumps(v, indent=2)] *)
Definition fact_value (v : Py.value) : answer string :=
  if Py.is_dict v || Py.is_list v then json_dumps_indent2 v else str v.

Definition fact_entry (kv : string * Py.value) : answer (string * string) :=
  match fact_value (snd kv) with
  | Gives text => Gives (fst kv, text)
  | Throws class => Throws class
  end.

(** [[str(item.get(key, "")) for key in headers]] *)
Definition table_row (headers : list string) (item : Py.value)
    : answer (list string) :=
  each (fun key => str (Py.get item key (Py.VStr ""))) headers.

(** The dispatch on the parsed value. *)
Definition elements_of_data (data : Py.value) : call (list Element) :=
  match data with
  | Py.VDict entries =>
      match each fact_entry entries with
      | Gives facts => Returns [create_fact_set facts]
      | Throws class => Raises (Library class)
      end
  | Py.VList items =>
      if negb (Nat.eqb (List.length items) 0) && forallb Py.is_dict items then
        let headers := list_of_set (all_keys_added items) in
        match each (table_row headers) items with
        | Gives rows => of_outcome (create_table headers rows None true true)
        | Throws class => Raises (Library class)
        end
      else
        match each str items with
        | Gives lines => Returns (create_list lines false)
        | Throws class => Raises (Library class)
        end
  | _ => Returns []
  end.

Definition from_json (json_data : Py.value) : call (list Element) :=
  match json_data with
  | Py.VStr s =>
      match json_loads s with
      | Decoded data => elements_of_data data
      | JSONDecodeError => Returns invalid_json
      | LoadsRaises class => Raises (Library class)
      end
  | _ => elements_of_data json_data
  end.

(** The library functions as the functions that always return, where
    they do. *)
Definition text_of (a : answer string) : string :=
  match a with
  | Gives text => text
  | Throws _ => ""
  end.

Definition decoded (s : string) : option Py.value :=
  match json_loads s with
  | Decoded data => Some data
  | _ => None
  end.

End FromJson.

End DataConnectorCalls.

(** ** Sample instances of library calls that can raise *)

Module SampleCalls.

Import DataConnectorCalls.

(** A decoder that refuses one deeply nested text and one long integer
    literal, and decodes what [Sample.json_loads] decodes. *)
Definition json_loads (s : string) : loaded :=
  if String.eqb s "[[[[]]]]" then LoadsRaises "RecursionError"
  else if String.eqb s "11111" then LoadsRaises "ValueError"
  else match Sample.json_loads s with
       | Some data => Decoded data
       | None => JSONDecodeError
       end.

Definition json_dumps_indent2 (v : Py.value) : answer string :=
  match v with
  | Py.VList [Py.VList [Py.VList _]] => Throws "RecursionError"
  | _ => Gives (Sample.json_dumps_indent2 v)
  end.

(** A digit limit of four. *)
Definition int_str (n : Z) : answer string :=
  if Z.ltb 9999 (Z.abs n) then Throws "ValueError"
  else Gives (Py.str_of_int n).

Definition container_repr (v : Py.value) : answer string :=
  match v with
  | Py.VList [Py.VList [Py.VList _]] => Throws "RecursionError"
  | _ => Gives (Sample.container_repr v)
  end.

End SampleCalls.

(** ** Text *)

Module Text.

(** [s.isascii()]: every byte is below 128.  On such a string
    [Py.lower] is [str.lower()] itself; on other strings it leaves the
    non-ASCII capitals as they are, which [str.lower()] would lower. *)
Fixpoint is_ascii (s : string) : bool :=
  match s with
  | EmptyString => true
  | String c rest => Nat.ltb (nat_of_ascii c) 128 && is_ascii rest
  end.

End Text.

(** ** templates/templates.py *)

Module TemplateFactory.

Import Raise.

(** [color_map.get(level) if level in color_map else None] *)
Definition color_map (level : string) : option types.Colors :=
  if String.eqb level "info" then Some types.Colors_ACCENT
  else if String.eqb level "warning" then Some types.Colors_WARNING
  else if String.eqb level "success" then Some types.Colors_GOOD
  else if String.eqb level "danger" then Some types.Colors_ATTENTION
  else None.

Definition message_color (level : option string) : option types.Colors :=
  match level with
  | Some l => color_map l
  | None => None
  end.

Definition notification_header (title : string) (icon_url : option string)
    : Element :=
  match icon_url with
  | Some url =>
      if truthy icon_url then
        LayoutHelperColumns.create_two_column_layout
          [ETextBlock (ElementFactory.create_heading title 1)]
          [EImage (ElementFactoryInputs.create_image url None
                     (Some types.ImageSize_SMALL) None)]
          (WStr "stretch") (WStr "auto") None
      else ETextBlock (ElementFactory.create_heading title 1)
  | None => ETextBlock (ElementFactory.create_heading title 1)
  end.

Definition notification_message (message : string) (level : option string)
    : Element :=
  ETextBlock {| tb_text := message;
                tb_size := None; tb_weight := None;
                tb_color := message_color level;
                tb_wrap := Some true;
                tb_is_subtle := None; tb_id := None |}.

Definition create_notification_card (title message : string)
    (level icon_url action_url : option string) : AdaptiveCard :=
  {| version := "1.5";
     body := Some [ notification_header title icon_url;
                    notification_message message level ];
     actions := match action_url with
                | Some url =>
                    if truthy action_url
                    then [ActionOpenUrl "View Details" url]
                    else []
                | None => []
                end |}.

End TemplateFactory.

(** ** delivery/delivery_manager.py *)

Module DeliveryManager.

Import Raise validation.

(** [requests.Response], by the attributes the manager reads. *)
Record Response := { status_code : Z; text : string }.

(** [TeamsClient(webhook_url)] *)
Record TeamsClient := { client_url : option string }.

(** The dictionary [send] returns.  A key that the dictionary lacks is
    [None]; the "status_code" key can also hold Python's [None]. *)
Record delivery := {
  success : bool;
  status : option (option Z);
  message : string;
  validation : option ValidationUtility.report
}.

Definition no_webhook_message : string :=
  "No webhook URL configured. Use set_webhook_url() first.".

Definition validation_failed_message : string :=
  "Card validation failed. See validation details.".

Definition delivered_message : string := "Card delivered successfully".

Section WithCollaborators.

Variable V : CardValidator.
Variable create_validator_microsoft_teams : state V.
Variable format_2f : Py.float -> string.

(** [client.send(card)]: the response, or the text of the exception. *)
Variable post : TeamsClient -> AdaptiveCard -> string + Response.

Record t := {
  platform : string;
  webhook_url : option string;
  validation_utility : ValidationUtility.t V;
  client : option TeamsClient
}.

Definition initialize_client (self : t) : result t :=
  if String.eqb (platform self) "teams" then
    Ok {| platform := platform self;
          webhook_url := webhook_url self;
          validation_utility := validation_utility self;
          client := Some {| client_url := webhook_url self |} |}
  else
    Error (ValueError ("Unsupported platform: " ++ platform self)).

Definition init (webhook_url : option string) (platform : string)
    : result t :=
  match ValidationUtility.init V create_validator_microsoft_teams platform with
  | Py.Raised e => Error (Uncaught e)
  | Py.Returned utility =>
      let self := {| platform := Py.lower platform;
                     webhook_url := webhook_url;
                     validation_utility := utility;
                     client := None |} in
      if truthy webhook_url then initialize_client self else Ok self
  end.

(** The attribute is assigned before the client is built, so the new
    URL stays when building the client raises. *)
Definition set_webhook_url (self : t) (url : string) : t * result unit :=
  let self1 := {| platform := platform self;
                  webhook_url := Some url;
                  validation_utility := validation_utility self;
                  client := client self |} in
  match initialize_client self1 with
  | Ok self2 => (self2, Ok tt)
  | Error e => (self1, Error e)
  end.

Definition validate_before_send (self : t) (card : AdaptiveCard)
    : t * ValidationUtility.report :=
  let (utility, report) :=
    ValidationUtility.validate V format_2f (validation_utility self) card in
  ({| platform := platform self;
      webhook_url := webhook_url self;
      validation_utility := utility;
      client := client self |}, report).

(** The third component lists the cards handed to [client.send]. *)
Definition send (self : t) (card : AdaptiveCard) (validate : bool)
    : t * delivery * list (TeamsClient * AdaptiveCard) :=
  match client self with
  | None =>
      (self,
       {| success := false; status := Some None;
          message := no_webhook_message; validation := None |},
       [])
  | Some c =>
      let '(self1, validation_result) :=
        if validate then
          let (s, r) := validate_before_send self card in (s, Some r)
        else (self, None) in
      let blocked :=
        match validation_result with
        | Some r => negb (ValidationUtility.valid r)
        | None => false
        end in
      if blocked then
        (self1,
         {| success := false; status := None;
            message := validation_failed_message;
            validation := validation_result |},
         [])
      else
        match post c card with
        | inr response =>
            let ok := Z.leb 200 (status_code response)
                      && Z.ltb (status_code response) 300 in
            (self1,
             {| success := ok;
                status := Some (Some (status_code response));
                message := if ok then delivered_message
                           else "Delivery failed: " ++ text response;
                validation := validation_result |},
             [(c, card)])
        | inl e =>
            (self1,
             {| success := false; status := None;
                message := "Error delivering card: " ++ e;
                validation := validation_result |},
             [(c, card)])
        end
  end.

Definition get_delivery_status (delivery_id : string) : string :=
  "Delivery status tracking is not currently supported by the target platform".

(** A client exists only on the one supported platform. *)
Definition client_only_on_teams (self : t) : Prop :=
  client self <> None -> platform self = "teams".

End WithCollaborators.

Arguments platform {V} _.
Arguments webhook_url {V} _.
Arguments validation_utility {V} _.
Arguments client {V} _.

(** A transport that answers every card with the given status. *)
Definition answering (code : Z) (body : string)
    (_ : TeamsClient) (_ : AdaptiveCard) : string + Response :=
  inr {| status_code := code; text := body |}.

End DeliveryManager.

(** ** Reading a validation report, continued *)

Module ReportReading.

Import validation.

(** How often a failure occurs among the details of a report. *)
Definition count_detail (f : ValidationFailure)
    (details : list ValidationFailure) : nat :=
  List.length (filter (failure_eqb f) details).

(** [card_size > size_limit * 0.8 and card_size <= size_limit] *)
Definition near_limit (card_size : Py.float) (limit : Z) : bool :=
  Py.fgt card_size (Py.fmul (Py.float_of_int limit) Py.lit_0_8)
  && Py.fle card_size (Py.float_of_int limit).

(** The validator measures a card the same in every state. *)
Definition measures_by_card (V : CardValidator) : Prop :=
  forall st st' card,
    snd (card_size V st card) = snd (card_size V st' card).

End ReportReading.

(** ** Sample instances for delivery *)

Module SampleDelivery.

Definition hook : string := "https://example.com/webhook".

Definition teams_state : validation.state Sample.validator :=
  TeamsValidator.create_validator_microsoft_teams
    Sample.three_kb_per_item Sample.never_newer.

(** The manager that [DeliveryManager(webhook_url=hook)] builds. *)
Definition manager : DeliveryManager.t Sample.validator :=
  {| DeliveryManager.platform := "teams";
     DeliveryManager.webhook_url := Some hook;
     DeliveryManager.validation_utility := Sample.utility "teams";
     DeliveryManager.client :=
       Some {| DeliveryManager.client_url := Some hook |} |}.

End SampleDelivery.

(** * Properties *)

(** ** Element factory *)

Module ElementFactoryFacts.

Lemma sizes_get (level : Z) :
  match ElementFactory.sizes level with
  | Some s => s
  | None => types.FontSize_MEDIUM
  end = SpecWords.heading_size_spec level.
Proof.
  unfold ElementFactory.sizes.
  destruct (Z.eqb_spec level 1) as [-> | H1]; [reflexivity |].
  destruct (Z.eqb_spec level 2) as [-> | H2]; [reflexivity |].
  destruct (Z.eqb_spec level 3) as [-> | H3]; [reflexivity |].
  destruct level as [| p | p]; try reflexivity.
  destruct p as [[q | q |] | [q | q |] |]; try reflexivity; congruence.
Qed.

(** C9: [create_heading] keeps the text, picks the size by level
    (1 extra-large, 2 large, 3 medium, any other level medium), and always
    sets wrap and the bolder weight. *)
Theorem create_heading_size_wrap_bold (text : string) (level : Z) :
  let h := ElementFactory.create_heading text level in
  tb_text h = text /\
  tb_size h = Some (SpecWords.heading_size_spec level) /\
  tb_wrap h = Some true /\
  tb_weight h = Some types.FontWeight_BOLDER.
Proof.
  cbn. rewrite sizes_get. repeat split.
Qed.

Example heading_level_2_is_large :
  tb_size (ElementFactory.create_heading "Report" 2) =
  Some types.FontSize_LARGE.
Proof. reflexivity. Qed.

Example heading_level_0_is_medium :
  tb_size (ElementFactory.create_heading "Report" 0) =
  Some types.FontSize_MEDIUM.
Proof. reflexivity. Qed.

End ElementFactoryFacts.

(** ** Layout helper *)

Module LayoutHelperFacts.

(** C8: the layout is the header container (bleed set) followed by the
    body container (medium spacing); a third container for the footer
    (medium spacing, separator set) is present exactly when footer items
    are given and not empty. *)
Theorem header_body_footer_shape
    (header_items body_items : list Element)
    (footer_items : option (list Element))
    (header_style body_style footer_style : option types.ContainerStyle) :
  let layout :=
    LayoutHelper.create_header_body_footer_layout
      header_items body_items footer_items
      header_style body_style footer_style in
  exists header body,
    firstn 2 layout = [header; body] /\
    is_container header = true /\
    container_items header = header_items /\
    container_style header = header_style /\
    container_bleed header = Some true /\
    is_container body = true /\
    container_items body = body_items /\
    container_style body = body_style /\
    container_spacing body = Some types.Spacing_MEDIUM /\
    skipn 2 layout =
      (if LayoutHelper.footer_given footer_items
       then [Container (LayoutHelper.footer_list footer_items) footer_style
               (Some types.Spacing_MEDIUM) (Some true) None None]
       else []).
Proof.
  destruct footer_items as [[| f fs] |]; cbn;
    eexists; eexists; repeat split.
Qed.

Example empty_footer_adds_no_container :
  List.length
    (LayoutHelper.create_header_body_footer_layout
       [Sample.note "title"] [Sample.note "text"] (Some [])
       (Some types.ContainerStyle_EMPHASIS) None
       (Some types.ContainerStyle_ACCENT)) = 2.
Proof. reflexivity. Qed.

Example footer_adds_third_container :
  map container_separator
    (LayoutHelper.create_header_body_footer_layout
       [Sample.note "title"] [Sample.note "text"] (Some [Sample.note "end"])
       (Some types.ContainerStyle_EMPHASIS) None
       (Some types.ContainerStyle_ACCENT)) = [None; None; Some true].
Proof. reflexivity. Qed.

End LayoutHelperFacts.

(** ** Tables *)

Module TableFacts.

Import DataConnector.

Lemma skipn_cons_nth (A : Type) (d : A) (l : list A) (i : nat) :
  i < List.length l -> skipn i l = nth i l d :: skipn (S i) l.
Proof.
  revert i. induction l as [| a l IH]; intros i Hi; cbn in Hi.
  - lia.
  - destruct i as [| i]; [reflexivity |].
    cbn [skipn nth]. apply IH. lia.
Qed.

Lemma combine_nil_r (A B : Type) (l : list A) : combine l (@nil B) = [].
Proof. destruct l; reflexivity. Qed.

(** The guarded cell loop pairs the cells with the widths from [col_idx]
    on and stops at the shorter of the two. *)
Lemma row_columns_from_combine (widths : list Width) (row : list string) :
  forall col_idx,
    row_columns_from widths col_idx row =
    map data_column (combine row (skipn col_idx widths)).
Proof.
  induction row as [| cell rest IH]; intros col_idx; [reflexivity |].
  cbn [row_columns_from]. rewrite IH.
  destruct (Nat.ltb_spec col_idx (List.length widths)) as [Hlt | Hge].
  - rewrite (skipn_cons_nth _ (WInt 1) widths _ Hlt). reflexivity.
  - rewrite (skipn_all2 widths Hge).
    rewrite (skipn_all2 widths) by lia.
    rewrite combine_nil_r. reflexivity.
Qed.

Lemma header_columns_from_returns (widths : list Width) (headers : list string) :
  forall i,
    i + List.length headers <= List.length widths ->
    header_columns_from widths i headers =
    Py.Returned (map header_column (combine headers (skipn i widths))).
Proof.
  induction headers as [| h rest IH]; intros i Hlen; [reflexivity |].
  cbn [header_columns_from]. cbn [List.length] in Hlen.
  assert (Hi : i < List.length widths) by lia.
  rewrite (skipn_cons_nth _ (WInt 1) widths _ Hi).
  rewrite (nth_error_nth' widths (WInt 1) Hi).
  rewrite IH by lia. reflexivity.
Qed.

Lemma header_columns_from_raises (widths : list Width) (headers : list string) :
  forall i,
    headers <> [] ->
    List.length widths < i + List.length headers ->
    header_columns_from widths i headers = Py.Raised Py.IndexError.
Proof.
  induction headers as [| h rest IH]; intros i Hne Hlen; [congruence |].
  cbn [List.length] in Hlen. cbn [header_columns_from].
  destruct (nth_error widths i) as [w |] eqn:Hw; [| reflexivity].
  assert (i < List.length widths) by (apply nth_error_Some; congruence).
  rewrite IH; [reflexivity | | lia].
  intros ->. cbn in Hlen. lia.
Qed.

Lemma data_rows_from_nth (widths : list Width) (alt : bool)
    (rows : list (list string)) :
  forall row_idx k row,
    nth_error rows k = Some row ->
    nth_error (data_rows_from widths alt row_idx rows) k =
    Some (Container [ColumnSet (row_columns_from widths 0 row) None None None]
                    (row_style alt (row_idx + k)) None None None None).
Proof.
  induction rows as [| r rest IH]; intros row_idx k row Hk.
  - destruct k; discriminate.
  - destruct k as [| k]; cbn in Hk |- *.
    + injection Hk as ->. rewrite Nat.add_0_r. reflexivity.
    + rewrite (IH (S row_idx) k row Hk).
      replace (S row_idx + k) with (row_idx + S k) by lia. reflexivity.
Qed.

Lemma data_rows_from_length widths alt rows :
  forall row_idx,
    List.length (data_rows_from widths alt row_idx rows) = List.length rows.
Proof.
  induction rows as [| r rest IH]; intros row_idx; cbn; [| rewrite IH]; reflexivity.
Qed.

Lemma default_widths_cover headers has_header_row :
  widths_cover_headers headers None has_header_row.
Proof. intros _. cbn. rewrite repeat_length. lia. Qed.

Lemma create_table_returns headers rows column_widths has_header_row alt :
  widths_cover_headers headers column_widths has_header_row ->
  exists header_part,
    List.length header_part = header_offset has_header_row /\
    create_table headers rows column_widths has_header_row alt =
    Py.Returned
      (header_part ++
       data_rows_from (resolve_widths headers column_widths) alt 0 rows)%list.
Proof.
  intros Hcover. unfold create_table.
  destruct has_header_row.
  - rewrite header_columns_from_returns by (cbn; apply Hcover; reflexivity).
    cbn [Py.bind skipn].
    exists [Container
              [ColumnSet
                 (map header_column
                      (combine headers (resolve_widths headers column_widths)))
                 None None None]
              (Some types.ContainerStyle_EMPHASIS) None (Some true) None None].
    split; reflexivity.
  - exists []. split; reflexivity.
Qed.

Lemma create_table_raises headers rows column_widths alt :
  List.length (resolve_widths headers column_widths) < List.length headers ->
  create_table headers rows column_widths true alt = Py.Raised Py.IndexError.
Proof.
  intros Hlt. unfold create_table.
  rewrite header_columns_from_raises; [reflexivity | | cbn; exact Hlt].
  intros ->. cbn in Hlt. lia.
Qed.

Lemma create_table_row headers rows column_widths has_header_row alt k row :
  widths_cover_headers headers column_widths has_header_row ->
  nth_error rows k = Some row ->
  exists table,
    create_table headers rows column_widths has_header_row alt =
      Py.Returned table /\
    List.length table = header_offset has_header_row + List.length rows /\
    nth_error table (header_offset has_header_row + k) =
      Some (Container
              [ColumnSet
                 (map data_column
                      (combine row (resolve_widths headers column_widths)))
                 None None None]
              (row_style alt k) None None None None).
Proof.
  intros Hcover Hk.
  destruct (create_table_returns headers rows column_widths has_header_row alt Hcover)
    as (header_part & Hlen & Heq).
  eexists. split; [exact Heq |]. split.
  - rewrite length_app, data_rows_from_length, Hlen. reflexivity.
  - rewrite nth_error_app2 by lia.
    replace (header_offset has_header_row + k - List.length header_part)
      with k by lia.
    rewrite (data_rows_from_nth _ alt rows 0 k row Hk).
    rewrite row_columns_from_combine. reflexivity.
Qed.

Lemma data_columns_texts (row : list string) :
  forall widths : list Width,
    all_some (map column_text (map data_column (combine row widths))) =
    Some (firstn (List.length widths) row).
Proof.
  induction row as [| cell rest IH]; intros widths.
  - cbn. rewrite firstn_nil. reflexivity.
  - destruct widths as [| w ws]; [reflexivity |].
    cbn. rewrite IH. reflexivity.
Qed.

Lemma mod2_is_odd (k : nat) : Nat.eqb (Nat.modulo k 2) 1 = Nat.odd k.
Proof.
  rewrite <- Nat.bit0_mod, Nat.bit0_odd.
  destruct (Nat.odd k); reflexivity.
Qed.

(** C7: with [alternate_row_style] set, the container of the data row at
    0-based index [k] carries the accent style when [k] is odd and no
    style when [k] is even. *)
Theorem alternate_rows_accent_iff_odd
    (headers : list string) (rows : list (list string))
    (column_widths : option (list Width)) (has_header_row : bool)
    (k : nat) (row : list string) :
  widths_cover_headers headers column_widths has_header_row ->
  nth_error rows k = Some row ->
  exists table e,
    create_table headers rows column_widths has_header_row true =
      Py.Returned table /\
    nth_error table (header_offset has_header_row + k) = Some e /\
    is_container e = true /\
    container_style e =
      (if Nat.odd k then Some types.ContainerStyle_ACCENT else None).
Proof.
  intros Hcover Hk.
  destruct (create_table_row headers rows column_widths has_header_row true k row Hcover Hk)
    as (table & Heq & _ & Hnth).
  eexists. eexists. split; [exact Heq |]. split; [exact Hnth |].
  split; [reflexivity |].
  cbn [container_style]. unfold row_style.
  rewrite mod2_is_odd. reflexivity.
Qed.

Lemma alternate_rows_accent_iff_odd_witness :
  exists table e,
    create_table ["Name"; "Age"] [["John"; "30"]; ["Jane"; "28"]] None true true =
      Py.Returned table /\
    nth_error table (header_offset true + 1) = Some e /\
    is_container e = true /\
    container_style e =
      (if Nat.odd 1 then Some types.ContainerStyle_ACCENT else None).
Proof.
  apply (alternate_rows_accent_iff_odd
           ["Name"; "Age"] [["John"; "30"]; ["Jane"; "28"]] None true
           1 ["Jane"; "28"]).
  - intros _. vm_compute. lia.
  - reflexivity.
Defined.

(** C3 (as stated) fails: with headers A and B and the one-cell row
    [x], the row container holds one column, not one per header. *)
Lemma short_row_is_not_padded :
  exists table e columns,
    create_table ["A"; "B"] [["x"]] None true true = Py.Returned table /\
    nth_error table (header_offset true + 0) = Some e /\
    row_columns_of e = Some columns /\
    List.length columns = 1 /\
    List.length columns <> List.length ["A"; "B"].
Proof.
  eexists. eexists. eexists.
  split; [vm_compute; reflexivity |].
  split; [reflexivity |].
  split; [reflexivity |].
  split; [reflexivity | discriminate].
Qed.

(** C3 (amended): the container of a data row holds one column per cell,
    in order, up to the number of column widths (the header count when no
    widths are given); cells beyond that are dropped and a shorter row is
    left short. *)
Theorem row_columns_truncated_to_widths
    (headers : list string) (rows : list (list string))
    (column_widths : option (list Width))
    (has_header_row alternate_row_style : bool)
    (k : nat) (row : list string) :
  widths_cover_headers headers column_widths has_header_row ->
  nth_error rows k = Some row ->
  let widths := resolve_widths headers column_widths in
  exists table e columns,
    create_table headers rows column_widths has_header_row alternate_row_style =
      Py.Returned table /\
    nth_error table (header_offset has_header_row + k) = Some e /\
    row_columns_of e = Some columns /\
    columns = map data_column (combine row widths) /\
    List.length columns = Nat.min (List.length row) (List.length widths) /\
    (column_widths = None ->
     List.length columns = Nat.min (List.length row) (List.length headers)) /\
    all_some (map column_text columns) =
      Some (firstn (List.length widths) row).
Proof.
  intros Hcover Hk widths.
  destruct (create_table_row headers rows column_widths has_header_row
              alternate_row_style k row Hcover Hk) as (table & Heq & _ & Hnth).
  eexists. eexists. eexists.
  split; [exact Heq |]. split; [exact Hnth |].
  split; [reflexivity |]. split; [reflexivity |].
  fold widths.
  assert (Hlen : List.length (map data_column (combine row widths)) =
                 Nat.min (List.length row) (List.length widths)).
  { rewrite length_map, length_combine. reflexivity. }
  split; [exact Hlen |]. split.
  - intros ->. rewrite Hlen. subst widths. cbn. rewrite repeat_length.
    reflexivity.
  - apply data_columns_texts.
Qed.

Lemma row_columns_truncated_to_widths_witness :
  exists table e columns,
    create_table ["A"; "B"] [["1"; "2"; "3"]; ["x"]] None true true =
      Py.Returned table /\
    nth_error table (header_offset true + 0) = Some e /\
    row_columns_of e = Some columns /\
    columns = map data_column (combine ["1"; "2"; "3"] [WInt 1; WInt 1]) /\
    List.length columns = 2 /\
    (@None (list Width) = None -> List.length columns = 2) /\
    all_some (map column_text columns) = Some ["1"; "2"].
Proof.
  apply (row_columns_truncated_to_widths
           ["A"; "B"] [["1"; "2"; "3"]; ["x"]] None true true
           0 ["1"; "2"; "3"]).
  - intros _. vm_compute. lia.
  - reflexivity.
Defined.

(** The table of the CSV scenario: a header container and two rows, the
    second of them accented. *)
Example name_age_table_styles :
  create_table ["Name"; "Age"] [["John"; "30"]; ["Jane"; "28"]] None true true
  = Py.Returned
      [ Container [ColumnSet (map header_column
                                [("Name", WInt 1); ("Age", WInt 1)])
                             None None None]
                  (Some types.ContainerStyle_EMPHASIS) None (Some true)
                  None None;
        Container [ColumnSet (map data_column
                                [("John", WInt 1); ("30", WInt 1)])
                             None None None]
                  None None None None None;
        Container [ColumnSet (map data_column
                                [("Jane", WInt 1); ("28", WInt 1)])
                             None None None]
                  (Some types.ContainerStyle_ACCENT) None None None None ].
Proof. reflexivity. Qed.

Example too_few_widths_raise :
  create_table ["A"; "B"] [["x"]] (Some [WInt 1]) true true
  = Py.Raised Py.IndexError.
Proof. reflexivity. Qed.

End TableFacts.

(** ** JSON dispatch *)

Module FromJsonFacts.

Import DataConnector.

Lemma first_seen_in (ks : list string) :
  forall seen k,
    In k (first_seen seen ks) <-> In k ks /\ ~ In k seen.
Proof.
  induction ks as [| a rest IH]; intros seen k; cbn [first_seen].
  - cbn. tauto.
  - destruct (in_dec string_dec a seen) as [Hin | Hout].
    + rewrite IH. cbn. split.
      * intros [H1 H2]. tauto.
      * intros [[-> | H1] H2]; tauto.
    + cbn [In]. rewrite IH. cbn [In]. split.
      * intros [-> | [H1 H2]]; tauto.
      * intros [[-> | H1] H2]; [tauto |].
        destruct (string_dec a k) as [-> | Hne]; [tauto |].
        right. split; [exact H1 |]. intros [E | H3]; tauto.
Qed.

Lemma first_seen_nodup (ks : list string) :
  forall seen, NoDup (first_seen seen ks).
Proof.
  induction ks as [| a rest IH]; intros seen; cbn [first_seen].
  - constructor.
  - destruct (in_dec string_dec a seen) as [Hin | Hout]; [apply IH |].
    constructor; [| apply IH].
    rewrite first_seen_in. cbn. tauto.
Qed.

Lemma first_seen_union_in (data : list Py.value) (k : string) :
  In k (first_seen_union data) <->
  exists record, In record data /\ In k (Py.keys record).
Proof.
  unfold first_seen_union. rewrite first_seen_in, in_flat_map.
  cbn. tauto.
Qed.

Lemma sample_listing_lawful : set_listing_lawful Sample.list_of_set.
Proof.
  intros added. unfold Sample.list_of_set. split.
  - apply NoDup_rev, first_seen_nodup.
  - intros k. rewrite <- in_rev, first_seen_in. cbn. tauto.
Qed.

Lemma fifo_listing_lawful : set_listing_lawful Sample.list_of_set_fifo.
Proof.
  intros added. unfold Sample.list_of_set_fifo. split.
  - apply first_seen_nodup.
  - intros k. rewrite first_seen_in. cbn. tauto.
Qed.

Lemma header_columns_texts (headers : list string) :
  forall widths : list Width,
    List.length headers <= List.length widths ->
    all_some (map column_text (map header_column (combine headers widths))) =
    Some headers.
Proof.
  induction headers as [| h rest IH]; intros widths Hlen; [reflexivity |].
  destruct widths as [| w ws]; cbn in Hlen; [lia |].
  cbn. rewrite IH by lia. reflexivity.
Qed.

Lemma create_table_header_texts headers rows alt :
  exists table,
    create_table headers rows None true alt = Py.Returned table /\
    header_texts table = Some headers.
Proof.
  unfold create_table.
  rewrite TableFacts.header_columns_from_returns
    by (cbn; rewrite repeat_length; lia).
  cbn [Py.bind skipn app]. eexists. split; [reflexivity |].
  cbn [header_texts row_texts row_columns_of].
  apply header_columns_texts. cbn. rewrite repeat_length. lia.
Qed.

Section Dispatch.

Variable json_loads : string -> option Py.value.
Variable json_dumps_indent2 : Py.value -> string.
Variable float_repr : Py.float -> string.
Variable container_repr : Py.value -> string.
Variable list_of_set : list string -> list string.

Local Abbreviation run :=
  (from_json json_loads json_dumps_indent2 float_repr container_repr
             list_of_set).

Lemma from_json_records (input : Py.value) (records : list Py.value) :
  parse_input json_loads input = Some (Py.VList records) ->
  records <> [] ->
  forallb Py.is_dict records = true ->
  exists table,
    run input = Py.Returned table /\
    header_texts table = Some (table_headers list_of_set records).
Proof.
  intros Hparse Hne Hdicts. unfold from_json. rewrite Hparse.
  cbn [elements_of_data]. rewrite Hdicts.
  destruct records as [| r rs]; [congruence |].
  cbn [List.length Nat.eqb negb andb].
  apply create_table_header_texts.
Qed.

(** C1 (amended): for a non-empty list of maps the header row shows the
    distinct keys of the records, each once, in the order in which the
    key set lists them; that order is a rearrangement of the first-seen
    union, not necessarily the first-seen order itself. *)
Theorem headers_are_distinct_keys_in_set_order
    (input : Py.value) (records : list Py.value) :
  set_listing_lawful list_of_set ->
  parse_input json_loads input = Some (Py.VList records) ->
  records <> [] ->
  forallb Py.is_dict records = true ->
  exists table headers,
    run input = Py.Returned table /\
    header_texts table = Some headers /\
    headers = table_headers list_of_set records /\
    NoDup headers /\
    (forall k, In k headers <->
               exists record, In record records /\ In k (Py.keys record)) /\
    Permutation headers (first_seen_union records).
Proof.
  intros Hlaw Hparse Hne Hdicts.
  destruct (from_json_records input records Hparse Hne Hdicts) as (table & Hrun & Htexts).
  exists table, (table_headers list_of_set records).
  destruct (Hlaw (all_keys_added records)) as [Hnodup Hin].
  assert (Hmem : forall k,
             In k (table_headers list_of_set records) <->
             exists record, In record records /\ In k (Py.keys record)).
  { intros k. unfold table_headers. rewrite Hin.
    unfold all_keys_added. apply in_flat_map. }
  repeat split; try assumption; try (apply Hmem).
  apply NoDup_Permutation.
  - exact Hnodup.
  - apply first_seen_nodup.
  - intros k. rewrite Hmem, first_seen_union_in. reflexivity.
Qed.

(** C10: an input that is, or is JSON text that decodes to, a value
    that is neither a map nor a list yields the empty list of elements. *)
Theorem scalar_data_yields_no_elements (input data : Py.value) :
  parse_input json_loads input = Some data ->
  Py.is_dict data = false ->
  Py.is_list data = false ->
  run input = Py.Returned [].
Proof.
  intros Hparse Hdict Hlist. unfold from_json. rewrite Hparse.
  destruct data; cbn in Hdict, Hlist |- *; congruence.
Qed.

End Dispatch.

(** C1 (as stated) fails: a key set that lists its members latest first
    is a lawful set, and for the single record with keys name, age the
    header row reads age, name while the first-seen union is name, age. *)
Lemma headers_not_in_first_seen_order :
  set_listing_lawful Sample.list_of_set /\
  exists table,
    from_json Sample.json_loads Sample.json_dumps_indent2 Sample.float_repr
              Sample.container_repr Sample.list_of_set
              (Py.VList [Py.VDict [("name", Py.VStr "John"); ("age", Py.VInt 30)]])
      = Py.Returned table /\
    header_texts table = Some ["age"; "name"] /\
    first_seen_union
      [Py.VDict [("name", Py.VStr "John"); ("age", Py.VInt 30)]]
      = ["name"; "age"] /\
    header_texts table <>
      Some (first_seen_union
              [Py.VDict [("name", Py.VStr "John"); ("age", Py.VInt 30)]]).
Proof.
  split; [exact sample_listing_lawful |].
  eexists. split; [vm_compute; reflexivity |].
  split; [reflexivity |]. split; [reflexivity |].
  vm_compute. discriminate.
Qed.

Lemma headers_are_distinct_keys_in_set_order_witness :
  exists table headers,
    from_json Sample.json_loads Sample.json_dumps_indent2 Sample.float_repr
              Sample.container_repr Sample.list_of_set
              (Py.VList [Py.VDict [("name", Py.VStr "John"); ("age", Py.VInt 30)];
                         Py.VDict [("role", Py.VStr "Dev"); ("name", Py.VNone)]])
      = Py.Returned table /\
    header_texts table = Some headers /\
    headers =
      table_headers Sample.list_of_set
        [Py.VDict [("name", Py.VStr "John"); ("age", Py.VInt 30)];
         Py.VDict [("role", Py.VStr "Dev"); ("name", Py.VNone)]] /\
    NoDup headers /\
    (forall k, In k headers <->
       exists record,
         In record [Py.VDict [("name", Py.VStr "John"); ("age", Py.VInt 30)];
                    Py.VDict [("role", Py.VStr "Dev"); ("name", Py.VNone)]] /\
         In k (Py.keys record)) /\
    Permutation headers
      (first_seen_union
         [Py.VDict [("name", Py.VStr "John"); ("age", Py.VInt 30)];
          Py.VDict [("role", Py.VStr "Dev"); ("name", Py.VNone)]]).
Proof.
  apply (headers_are_distinct_keys_in_set_order
           Sample.json_loads Sample.json_dumps_indent2 Sample.float_repr
           Sample.container_repr Sample.list_of_set
           (Py.VList [Py.VDict [("name", Py.VStr "John"); ("age", Py.VInt 30)];
                      Py.VDict [("role", Py.VStr "Dev"); ("name", Py.VNone)]])).
  - exact sample_listing_lawful.
  - reflexivity.
  - discriminate.
  - reflexivity.
Defined.

Lemma scalar_data_yields_no_elements_witness :
  from_json Sample.json_loads Sample.json_dumps_indent2 Sample.float_repr
            Sample.container_repr Sample.list_of_set (Py.VStr "7")
    = Py.Returned [].
Proof.
  apply (scalar_data_yields_no_elements
           Sample.json_loads Sample.json_dumps_indent2 Sample.float_repr
           Sample.container_repr Sample.list_of_set
           (Py.VStr "7") (Py.VInt 7)); reflexivity.
Defined.

Example undecodable_text_yields_error_element :
  from_json Sample.json_loads Sample.json_dumps_indent2 Sample.float_repr
            Sample.container_repr Sample.list_of_set (Py.VStr "{not valid json")
    = Py.Returned invalid_json.
Proof. reflexivity. Qed.

Example map_yields_fact_set :
  from_json Sample.json_loads Sample.json_dumps_indent2 Sample.float_repr
            Sample.container_repr Sample.list_of_set
            (Py.VDict [("Name", Py.VStr "John"); ("Age", Py.VInt 30)])
    = Py.Returned
        [FactSet [ {| fact_title := "Name"; fact_value := "John" |};
                   {| fact_title := "Age"; fact_value := "30" |} ] None].
Proof. reflexivity. Qed.

Example numbered_list_texts :
  map (fun e => match e with ETextBlock t => tb_text t | _ => "" end)
      (create_list ["a"; "b"; "c"] true)
    = ["1. a"; "2. b"; "3. c"].
Proof. reflexivity. Qed.

End FromJsonFacts.

(** ** Floating-point comparisons *)

Module FloatFacts.

Lemma SFcompare_antisym (x y : spec_float) :
  SFcompare y x = option_map CompOpp (SFcompare x y).
Proof.
  destruct x as [sx | sx | | sx mx ex], y as [sy | sy | | sy my ey];
    cbn; try reflexivity;
    try (destruct sx; reflexivity);
    try (destruct sy; reflexivity);
    try (destruct sx, sy; reflexivity).
  destruct sx, sy; try reflexivity; f_equal.
  - rewrite (Z.compare_antisym ex ey).
    destruct (ex ?= ey)%Z; cbn; try reflexivity.
    change (Pos.compare_cont Eq my mx) with (Pos.compare my mx).
    change (Pos.compare_cont Eq mx my) with (Pos.compare mx my).
    rewrite (Pos.compare_antisym mx my).
    destruct (Pos.compare mx my); reflexivity.
  - rewrite (Z.compare_antisym ex ey).
    destruct (ex ?= ey)%Z; cbn; try reflexivity.
    change (Pos.compare_cont Eq my mx) with (Pos.compare my mx).
    change (Pos.compare_cont Eq mx my) with (Pos.compare mx my).
    rewrite (Pos.compare_antisym mx my).
    destruct (Pos.compare mx my); reflexivity.
Qed.

(** [x > y] excludes [x <= y]. *)
Lemma fgt_not_fle (x y : Py.float) :
  Py.fgt x y = true -> Py.fle x y = false.
Proof.
  unfold Py.fgt, Py.fle, SFltb, SFleb.
  rewrite (SFcompare_antisym x y).
  destruct (SFcompare x y) as [[| |] |]; cbn; congruence.
Qed.


(** A size above 40 is above 28. *)
Lemma above_40_above_28 (sz : Py.float) :
  Py.fgt sz (Py.float_of_int 40) = true ->
  Py.fgt sz (Py.float_of_int 28) = true.
Proof.
  unfold Py.fgt, SFltb.
  change (Py.float_of_int 40) with (S754_finite false 5629499534213120 (-47)).
  change (Py.float_of_int 28) with (S754_finite false 7881299347898368 (-48)).
  destruct sz as [s | s | | s m e]; cbn -[Z.compare Pos.compare_cont];
    try discriminate.
  - destruct s; [discriminate | reflexivity].
  - destruct s; [discriminate |].
    destruct (Z.compare_spec (-47) e) as [<- | Hlt | Hgt].
    + intros _. reflexivity.
    + intros _. destruct (Z.compare_spec (-48) e) as [<- | Hlt' | Hgt'];
        [lia | reflexivity | lia].
    + discriminate.
Qed.

End FloatFacts.

(** ** Validation utility *)

Module ValidationFacts.

Import validation ValidationUtility.

(** *** Construction *)

(** C2 (amended): construction never raises.  Whatever the target name,
    the utility records the name as given and holds the Teams validator;
    a name other than "teams" only changes the reported size limit to 40. *)
Theorem init_returns_teams_validator
    (V : CardValidator) (teams : state V) (target : string) :
  init V teams target =
    Py.Returned {| target := target; validator := teams |} /\
  target_size_limit V {| target := target; validator := teams |} =
    (if String.eqb (Py.lower target) "teams" then 28 else 40)%Z.
Proof.
  unfold init, target_size_limit. cbn.
  destruct (String.eqb (Py.lower target) "teams"); split; reflexivity.
Qed.

(** C2 (as stated) fails: the unknown target "slack" raises nothing and
    yields a utility that holds the Teams validator. *)
Lemma init_unknown_target_does_not_raise :
  String.eqb (Py.lower "slack") "teams" = false /\
  init Sample.validator
       (TeamsValidator.create_validator_microsoft_teams
          Sample.three_kb_per_item Sample.never_newer)
       "slack"
    = Py.Returned (Sample.utility "slack") /\
  ~ (exists e,
       init Sample.validator
            (TeamsValidator.create_validator_microsoft_teams
               Sample.three_kb_per_item Sample.never_newer)
            "slack"
       = Py.Raised e).
Proof.
  split; [reflexivity |]. split; [reflexivity |].
  intros [e He]. discriminate He.
Qed.

(** *** validate *)

(** The report is a function of the target, the card and what one run of
    the validator gives. *)
Lemma validate_by_run (V : CardValidator) (format_2f : Py.float -> string)
    (self self' : t V) (card : AdaptiveCard) :
  target self = target self' ->
  snd (Contract.run V (validator self) card) =
  snd (Contract.run V (validator self') card) ->
  snd (validate V format_2f self card) = snd (validate V format_2f self' card).
Proof.
  intros Htarget Hrun. unfold validate, Contract.run, target_size_limit in *.
  rewrite <- Htarget.
  destruct (validation.validate V (validator self) card) as [v1 r1].
  destruct (validation.card_size V v1 card) as [v2 s2].
  destruct (validation.validate V (validator self') card) as [v1' r1'].
  destruct (validation.card_size V v1' card) as [v2' s2'].
  cbn in Hrun |- *. injection Hrun as -> -> ->. reflexivity.
Qed.

Lemma validate_keeps_target (V : CardValidator) format_2f (self : t V) card :
  target (fst (validate V format_2f self card)) = target self.
Proof.
  unfold validate.
  destruct (validation.validate V (validator self) card) as [v1 r1].
  destruct (validation.card_size V v1 card) as [v2 s2].
  reflexivity.
Qed.

(** C4: with a validator that starts every run afresh, a second
    [validate] of the same card on the same utility gives the same report
    as the first: same flag, details, size, limit, warnings and
    suggestions. *)
Theorem validate_twice_same_report
    (V : CardValidator) (format_2f : Py.float -> string)
    (self : t V) (card : AdaptiveCard) :
  Contract.resets_per_call V ->
  let first := validate V format_2f self card in
  let second := validate V format_2f (fst first) card in
  snd second = snd first.
Proof.
  intros Hresets first second. subst first second.
  apply validate_by_run.
  - apply validate_keeps_target.
  - apply Hresets.
Qed.

Lemma teams_validator_resets size_kb newer :
  Contract.resets_per_call (TeamsValidator.teams_validator size_kb newer).
Proof. intros st st' card. reflexivity. Qed.

Lemma validate_twice_same_report_witness :
  snd (validate Sample.validator Sample.format_float
         (fst (validate Sample.validator Sample.format_float
                 (Sample.utility "teams")
                 (Sample.card_of (Sample.notes 8))))
         (Sample.card_of (Sample.notes 8)))
  = snd (validate Sample.validator Sample.format_float
           (Sample.utility "teams") (Sample.card_of (Sample.notes 8))).
Proof.
  apply (validate_twice_same_report Sample.validator Sample.format_float
           (Sample.utility "teams") (Sample.card_of (Sample.notes 8))).
  apply teams_validator_resets.
Defined.

(** *** Size limit *)

Lemma count_failure_in (f : ValidationFailure) (fs : list Finding) :
  0 < Contract.count_failure f fs -> In f (map failure fs).
Proof.
  unfold Contract.count_failure.
  induction fs as [| x rest IH]; cbn; [lia |].
  destruct (failure_eqb (failure x) f) eqn:E.
  - intros _. left. destruct (failure x), f; (reflexivity || discriminate).
  - intros H. right. apply IH, H.
Qed.

Lemma version_suggestion_not_size_related (v : string) :
  Reading.size_related (version_suggestion v) = false.
Proof. reflexivity. Qed.

(** Among the suggestions drawn from the findings, the size-related ones
    are the four fixed lines, once per [SIZE_LIMIT_EXCEEDED] finding. *)
Lemma size_related_finding_suggestions (v : string) (fs : list Finding) :
  filter Reading.size_related (finding_suggestions v fs) =
  List.concat (repeat size_limit_suggestions
                 (Contract.count_failure SIZE_LIMIT_EXCEEDED fs)).
Proof.
  unfold Contract.count_failure.
  induction fs as [| x rest IH]; [reflexivity |].
  cbn [finding_suggestions filter]. rewrite filter_app, IH.
  destruct (failure x); cbn [failure_eqb].
  - reflexivity.
  - cbn [filter]. rewrite version_suggestion_not_size_related. reflexivity.
  - reflexivity.
Qed.

Lemma limit_is_28_or_40 (V : CardValidator) (self : t V) :
  target_size_limit V self = 28%Z \/ target_size_limit V self = 40%Z.
Proof.
  unfold target_size_limit.
  destruct (String.eqb (Py.lower (target self)) "teams"); auto.
Qed.

(** C5: when the size the validator measures for the card exceeds the
    profile's limit (28 for the target "teams" in any letter case, 40 for
    every other target), the report shows that size and that limit, its
    details contain [SIZE_LIMIT_EXCEEDED], and among its suggestions the
    size-related ones are exactly the four fixed lines, in the order of
    the source.  The finding itself is the third-party validator's: it
    enters through the size rule of the "teams" validator. *)
Theorem oversize_card_gets_four_size_suggestions
    (V : CardValidator) (format_2f : Py.float -> string)
    (self : t V) (card : AdaptiveCard) :
  Contract.teams_size_rule V ->
  let measured :=
    snd (validation.card_size V
           (fst (validation.validate V (validator self) card)) card) in
  let limit :=
    (if String.eqb (Py.lower (target self)) "teams" then 28 else 40)%Z in
  SFltb (binary_normalize 53 1024 limit 0 false) measured = true ->
  let r := snd (validate V format_2f self card) in
  size r = measured /\
  size_limit r = limit /\
  In SIZE_LIMIT_EXCEEDED (report_details r) /\
  filter
    (fun s =>
       existsb (String.eqb s)
         [ "Card size exceeds the limit for the target platform.";
           "Consider reducing the number of elements or simplifying complex elements.";
           "Minimize the use of images or use lower resolution images.";
           "Break content into multiple smaller cards if possible.";
           "Consider optimizing the card to reduce its size." ])
    (suggestions r)
  = [ "Card size exceeds the limit for the target platform.";
      "Consider reducing the number of elements or simplifying complex elements.";
      "Minimize the use of images or use lower resolution images.";
      "Break content into multiple smaller cards if possible." ].
Proof.
  intros Hrule measured limit Hover r. subst r measured limit.
  specialize (Hrule (validator self) card).
  change (if String.eqb (Py.lower (target self)) "teams" then 28%Z else 40%Z)
    with (target_size_limit V self) in *.
  change (SFltb (binary_normalize 53 1024 (target_size_limit V self) 0 false))
    with (fun x => Py.fgt x (Py.float_of_int (target_size_limit V self)))
    in Hover.
  cbv beta in Hover.
  unfold validate, Contract.run in *.
  destruct (validation.validate V (validator self) card) as [v1 r1].
  cbn [fst] in *.
  destruct (validation.card_size V v1 card) as [v2 sz].
  cbn [snd size size_limit report_details suggestions] in *.
  assert (H28 : Py.fgt sz (Py.float_of_int TeamsValidator.teams_size_limit_kb)
                = true).
  { destruct (limit_is_28_or_40 V self) as [E | E]; rewrite E in Hover.
    - exact Hover.
    - apply FloatFacts.above_40_above_28, Hover. }
  rewrite H28 in Hrule.
  rewrite (FloatFacts.fgt_not_fle _ _ Hover), andb_false_r.
  split; [reflexivity |]. split; [reflexivity |].
  split; [apply count_failure_in; lia |].
  change (filter Reading.size_related
            (finding_suggestions (version card) (details V v2))
          = size_limit_suggestions).
  rewrite size_related_finding_suggestions, Hrule. reflexivity.
Qed.

Lemma teams_validator_size_rule size_kb newer :
  Contract.teams_size_rule (TeamsValidator.teams_validator size_kb newer).
Proof.
  intros st card. cbn. unfold Contract.count_failure, TeamsValidator.findings_of.
  rewrite !filter_app, !length_app.
  replace (List.length (filter _ (TeamsValidator.structural_check card)))
    with 0
    by (unfold TeamsValidator.structural_check;
        destruct (body_or_empty card); reflexivity).
  replace (List.length (filter _ (TeamsValidator.schema_check newer card)))
    with 0.
  - unfold TeamsValidator.size_check.
    destruct (Py.fgt (size_kb card) _); reflexivity.
  - unfold TeamsValidator.schema_check.
    induction (nodup string_dec _) as [| ty tys IH]; [reflexivity | exact IH].
Qed.

Lemma oversize_card_gets_four_size_suggestions_witness :
  size (snd (validate Sample.validator Sample.format_float
               (Sample.utility "slack") (Sample.card_of (Sample.notes 15))))
    = snd (validation.card_size Sample.validator
             (fst (validation.validate Sample.validator
                     (validator (Sample.utility "slack"))
                     (Sample.card_of (Sample.notes 15))))
             (Sample.card_of (Sample.notes 15))) /\
  size_limit (snd (validate Sample.validator Sample.format_float
                     (Sample.utility "slack")
                     (Sample.card_of (Sample.notes 15))))
    = (if String.eqb (Py.lower (target (Sample.utility "slack"))) "teams"
       then 28 else 40)%Z /\
  In SIZE_LIMIT_EXCEEDED
     (report_details
        (snd (validate Sample.validator Sample.format_float
                (Sample.utility "slack")
                (Sample.card_of (Sample.notes 15))))) /\
  filter
    (fun s =>
       existsb (String.eqb s)
         [ "Card size exceeds the limit for the target platform.";
           "Consider reducing the number of elements or simplifying complex elements.";
           "Minimize the use of images or use lower resolution images.";
           "Break content into multiple smaller cards if possible.";
           "Consider optimizing the card to reduce its size." ])
    (suggestions
       (snd (validate Sample.validator Sample.format_float
               (Sample.utility "slack")
               (Sample.card_of (Sample.notes 15)))))
  = [ "Card size exceeds the limit for the target platform.";
      "Consider reducing the number of elements or simplifying complex elements.";
      "Minimize the use of images or use lower resolution images.";
      "Break content into multiple smaller cards if possible." ].
Proof.
  apply (oversize_card_gets_four_size_suggestions
           Sample.validator Sample.format_float
           (Sample.utility "slack") (Sample.card_of (Sample.notes 15))).
  - apply teams_validator_size_rule.
  - vm_compute. reflexivity.
Defined.

(** Thirty kilobytes under "teams" (limit 28), and forty-five under
    "slack" (limit 40): the whole of the details and the suggestions. *)
Example thirty_kb_under_teams :
  let r := snd (validate Sample.validator Sample.format_float
                  (Sample.utility "teams")
                  (Sample.card_of (Sample.notes 10))) in
  size_limit r = 28%Z /\
  report_details r = [SIZE_LIMIT_EXCEEDED] /\
  suggestions r =
    [ "Card size exceeds the limit for the target platform.";
      "Consider reducing the number of elements or simplifying complex elements.";
      "Minimize the use of images or use lower resolution images.";
      "Break content into multiple smaller cards if possible." ].
Proof. vm_compute. repeat split. Qed.

Example forty_five_kb_under_slack :
  let r := snd (validate Sample.validator Sample.format_float
                  (Sample.utility "slack")
                  (Sample.card_of (Sample.notes 15))) in
  size_limit r = 40%Z /\
  report_details r = [SIZE_LIMIT_EXCEEDED] /\
  suggestions r =
    [ "Card size exceeds the limit for the target platform.";
      "Consider reducing the number of elements or simplifying complex elements.";
      "Minimize the use of images or use lower resolution images.";
      "Break content into multiple smaller cards if possible." ].
Proof. vm_compute. repeat split. Qed.

(** *** suggest_optimizations *)



(** At 19.6 KB under "teams" the product [28 * 0.7] rounds below 19.6,
    so the size counts as above the threshold. *)
Lemma threshold_rounding_example :
  Py.fgt (Py.fdiv (Py.float_of_int 196) (Py.float_of_int 10))
         (Py.fmul (Py.float_of_int 28) Py.lit_0_7) = true.
Proof. vm_compute. reflexivity. Qed.

(** An empty body under "teams": one finding, one suggestion. *)
Example empty_card_report :
  let r := snd (validate Sample.validator Sample.format_float
                  (Sample.utility "teams") (Sample.card_of [])) in
  valid r = false /\
  report_details r = [EMPTY_CARD] /\
  suggestions r = [empty_card_suggestion].
Proof. vm_compute. repeat split. Qed.

(** Thirty-three kilobytes of notes and two images under "teams". *)
Example optimizations_for_notes_and_images :
  snd (suggest_optimizations Sample.validator
         Sample.format_float Sample.format_float (Sample.utility "teams")
         (Sample.card_of
            (Sample.notes 11 ++ [Sample.picture "a"; Sample.picture "b"])))
  = [ size_summary Sample.format_float Sample.format_float
        (Py.float_of_int 39) 28;
      "Consider reducing the number of elements in the card.";
      "Card contains 2 images. Consider reducing image count or size." ].
Proof. vm_compute. reflexivity. Qed.

End ValidationFacts.

(** * Further properties *)

(** ** Lists and tables *)

Module ListTableFacts.

Import DataConnector DataConnectorMore.

(** The text block that [create_list] builds for one line. *)
Lemma create_list_from_nth (is_numbered : bool) (items : list string) :
  forall i k item,
    nth_error items k = Some item ->
    nth_error (create_list_from i items is_numbered) k =
    Some (ETextBlock
            {| tb_text :=
                 (if is_numbered then Py.str_of_nat (i + k) ++ ". "
                  else bullet_prefix) ++ item;
               tb_size := None; tb_weight := None; tb_color := None;
               tb_wrap := Some true; tb_is_subtle := None;
               tb_id := None |}).
Proof.
  induction items as [| x rest IH]; intros i k item Hk.
  - destruct k; discriminate.
  - destruct k as [| k]; cbn in Hk |- *.
    + injection Hk as ->. rewrite Nat.add_0_r. reflexivity.
    + rewrite (IH (S i) k item Hk).
      replace (S i + k) with (i + S k) by lia. reflexivity.
Qed.

Lemma create_list_from_length (is_numbered : bool) (items : list string) :
  forall i, List.length (create_list_from i items is_numbered) = List.length items.
Proof.
  induction items as [| x rest IH]; intros i; cbn; [| rewrite IH]; reflexivity.
Qed.

(** X1: [create_list] gives one wrapped text block per item, in order;
    the block for the item at 0-based position [k] reads the item
    after "k+1. " when numbered and after the bullet prefix otherwise. *)
Theorem create_list_lines (items : list string) (is_numbered : bool) :
  List.length (create_list items is_numbered) = List.length items /\
  forall k item,
    nth_error items k = Some item ->
    exists t,
      nth_error (create_list items is_numbered) k = Some (ETextBlock t) /\
      tb_text t =
        (if is_numbered then Py.str_of_nat (k + 1) ++ ". " else bullet_prefix)
        ++ item /\
      tb_wrap t = Some true.
Proof.
  split; [apply create_list_from_length |].
  intros k item Hk. unfold create_list.
  rewrite (create_list_from_nth is_numbered items 1 k item Hk).
  eexists. split; [reflexivity |]. cbn.
  replace (k + 1) with (S k) by lia. split; reflexivity.
Qed.

(** X2: [create_table] raises [IndexError] exactly when a header row is
    requested and there are fewer column widths than headers; in every
    other case it returns one container per data row, after the header
    container if there is one. *)
Theorem create_table_raises_iff_widths_short
    (headers : list string) (rows : list (list string))
    (column_widths : option (list Width))
    (has_header_row alternate_row_style : bool) :
  if has_header_row
     && Nat.ltb (List.length (resolve_widths headers column_widths))
                (List.length headers)
  then create_table headers rows column_widths has_header_row
                    alternate_row_style = Py.Raised Py.IndexError
  else exists table,
      create_table headers rows column_widths has_header_row
                   alternate_row_style = Py.Returned table /\
      List.length table = header_offset has_header_row + List.length rows.
Proof.
  destruct has_header_row; cbn [andb].
  - destruct (Nat.ltb_spec (List.length (resolve_widths headers column_widths))
                           (List.length headers)) as [Hlt | Hge].
    + apply TableFacts.create_table_raises, Hlt.
    + destruct (TableFacts.create_table_returns headers rows column_widths
                  true alternate_row_style (fun _ => Hge))
        as (header_part & Hlen & Heq).
      eexists. split; [exact Heq |].
      rewrite length_app, TableFacts.data_rows_from_length, Hlen. reflexivity.
  - destruct (TableFacts.create_table_returns headers rows column_widths
                false alternate_row_style) as (header_part & Hlen & Heq).
    + intros H. discriminate H.
    + eexists. split; [exact Heq |].
      rewrite length_app, TableFacts.data_rows_from_length, Hlen. reflexivity.
Qed.

Lemma data_rows_styles (widths : list Width) (alt : bool)
    (rows : list (list string)) :
  forall row_idx,
    Forall (fun e => container_style e = None \/
                     (alt = true /\
                      container_style e = Some types.ContainerStyle_ACCENT))
           (data_rows_from widths alt row_idx rows).
Proof.
  induction rows as [| r rest IH]; intros row_idx;
    cbn [data_rows_from]; constructor; [| apply IH].
  cbn [container_style]. unfold row_style.
  destruct alt; cbn [andb]; [| left; reflexivity].
  destruct (Nat.eqb (Nat.modulo row_idx 2) 1);
    [right; split; reflexivity | left; reflexivity].
Qed.

(** X3: without a header row [create_table] never raises and returns
    exactly one container per data row; no container carries the
    emphasis style, and without alternating styles none carries a style
    at all. *)
Theorem headerless_table_has_no_emphasis
    (headers : list string) (rows : list (list string))
    (column_widths : option (list Width)) (alternate_row_style : bool) :
  exists table,
    create_table headers rows column_widths false alternate_row_style =
      Py.Returned table /\
    List.length table = List.length rows /\
    Forall (fun e => is_container e = true /\
                     container_style e <> Some types.ContainerStyle_EMPHASIS /\
                     (alternate_row_style = false -> container_style e = None))
           table.
Proof.
  unfold create_table. cbn [Py.bind app].
  eexists. split; [reflexivity |]. split.
  - apply TableFacts.data_rows_from_length.
  - assert (Hc : forall widths alt rows i,
               Forall (fun e => is_container e = true)
                      (data_rows_from widths alt i rows)).
    { intros widths alt rs. induction rs as [| r rest IH]; intros i; cbn;
        constructor; [reflexivity | apply IH]. }
    pose proof (data_rows_styles (resolve_widths headers column_widths)
                  alternate_row_style rows 0) as Hs.
    pose proof (Hc (resolve_widths headers column_widths)
                   alternate_row_style rows 0) as Hk.
    rewrite Forall_forall in *. intros e He.
    specialize (Hs e He). specialize (Hk e He).
    split; [exact Hk |]. split.
    + destruct Hs as [-> | [_ ->]]; discriminate.
    + intros ->. destruct Hs as [H | [H _]]; [exact H | discriminate H].
Qed.

(** X4: [from_csv] never fails and never returns an empty list.  Parsed
    rows with a first row give a table whose header row shows that first
    row, followed by one container per remaining row; no rows give the
    single "Empty CSV data" element, and a reader error gives a single
    element that quotes the error. *)
Theorem from_csv_outcomes
    (csv_rows : string -> string + list (list string)) (csv_data : string) :
  from_csv csv_rows csv_data <> [] /\
  match csv_rows csv_data with
  | inl message =>
      from_csv csv_rows csv_data =
      error_text ("Error parsing CSV: " ++ message)
  | inr [] => from_csv csv_rows csv_data = error_text "Empty CSV data"
  | inr (headers :: data_rows) =>
      create_table headers data_rows None true true =
        Py.Returned (from_csv csv_rows csv_data) /\
      header_texts (from_csv csv_rows csv_data) = Some headers /\
      List.length (from_csv csv_rows csv_data) = S (List.length data_rows)
  end.
Proof.
  unfold from_csv.
  destruct (csv_rows csv_data) as [message | [| headers data_rows]].
  - split; [discriminate | reflexivity].
  - split; [discriminate | reflexivity].
  - destruct (FromJsonFacts.create_table_header_texts headers data_rows true)
      as (table & Heq & Htexts).
    destruct (TableFacts.create_table_returns headers data_rows None true true
                (TableFacts.default_widths_cover headers true))
      as (header_part & Hpart & Heq').
    assert (Hlen : List.length table = S (List.length data_rows)).
    { rewrite Heq in Heq'. injection Heq' as ->.
      rewrite length_app, TableFacts.data_rows_from_length, Hpart.
      reflexivity. }
    rewrite Heq. split.
    + intros ->. discriminate Hlen.
    + split; [reflexivity |]. split; [exact Htexts | exact Hlen].
Qed.

Section KeyValueColumns.

Variable json_dumps_indent2 : Py.value -> string.
Variable float_repr : Py.float -> string.
Variable container_repr : Py.value -> string.

Lemma key_value_items_shape (data : list (string * Py.value)) :
  key_value_items json_dumps_indent2 float_repr container_repr data =
  (map (fun kv => key_item (fst kv)) data,
   map (fun kv => value_item json_dumps_indent2 float_repr container_repr
                    (snd kv)) data).
Proof.
  induction data as [| [k v] rest IH]; [reflexivity |].
  cbn [key_value_items]. rewrite IH. reflexivity.
Qed.

(** X5: [key_value_pairs_to_columns] returns a column set of two
    columns with the given widths; both hold one text block per entry,
    in the entries' order, the left one the keys in bold, the right one
    the values, a plain string value shown as it is. *)
Theorem key_value_columns_are_aligned
    (data : list (string * Py.value)) (key_width value_width : Width) :
  exists key_items value_items,
    key_value_pairs_to_columns json_dumps_indent2 float_repr
      container_repr data key_width value_width =
    ColumnSet
      [ MkColumn key_items (Some key_width) None None None;
        MkColumn value_items (Some value_width) None None None ]
      None None None /\
    List.length key_items = List.length data /\
    List.length value_items = List.length data /\
    map element_text key_items = map (fun kv => Some (fst kv)) data /\
    Forall (fun e => exists t, e = ETextBlock t /\
                               tb_weight t = Some types.FontWeight_BOLDER)
           key_items /\
    forall k key s,
      nth_error data k = Some (key, Py.VStr s) ->
      option_map element_text (nth_error value_items k) = Some (Some s).
Proof.
  unfold key_value_pairs_to_columns. rewrite key_value_items_shape.
  eexists. eexists. split; [reflexivity |].
  rewrite !length_map, map_map. repeat split.
  - apply Forall_forall. intros e He. apply in_map_iff in He.
    destruct He as (kv & <- & _). eexists. split; reflexivity.
  - intros k key s Hk. rewrite nth_error_map, Hk. reflexivity.
Qed.

End KeyValueColumns.

End ListTableFacts.

(** ** JSON dispatch, continued *)

Module DispatchFacts.

Import DataConnector DataConnectorMore.

Section Dispatch.

Variable json_loads : string -> option Py.value.
Variable json_dumps_indent2 : Py.value -> string.
Variable float_repr : Py.float -> string.
Variable container_repr : Py.value -> string.
Variable list_of_set : list string -> list string.

Local Abbreviation run :=
  (from_json json_loads json_dumps_indent2 float_repr container_repr
             list_of_set).
Local Abbreviation to_str := (str float_repr container_repr).

Lemma table_rows_nth (headers : list string) (records : list Py.value)
    (k : nat) (record : Py.value) :
  nth_error records k = Some record ->
  nth_error (table_rows float_repr container_repr headers records) k =
  Some (map (fun key => to_str (Py.get record key (Py.VStr ""))) headers).
Proof.
  intros Hk. unfold table_rows. rewrite nth_error_map, Hk. reflexivity.
Qed.

(** X7: in the table that [from_json] builds for a non-empty list of
    maps, the row of every record has exactly one cell per header:
    the cell under a header is the text of the record's value for that
    key, and the empty text when the record lacks the key. *)
Theorem record_rows_are_full_width
    (input : Py.value) (records : list Py.value)
    (k : nat) (record : Py.value) :
  parse_input json_loads input = Some (Py.VList records) ->
  forallb Py.is_dict records = true ->
  nth_error records k = Some record ->
  let headers := table_headers list_of_set records in
  exists table row cells,
    run input = Py.Returned table /\
    List.length table = S (List.length records) /\
    nth_error table (S k) = Some row /\
    row_texts row = Some cells /\
    List.length cells = List.length headers /\
    cells = map (fun key => to_str (Py.get record key (Py.VStr ""))) headers /\
    forall j key,
      nth_error headers j = Some key ->
      Py.lookup key (Py.dict_entries record) = None ->
      nth_error cells j = Some "".
Proof.
  intros Hparse Hdicts Hk headers.
  assert (Hne : negb (Nat.eqb (List.length records) 0) = true).
  { destruct records; [destruct k; discriminate | reflexivity]. }
  unfold from_json. rewrite Hparse. cbn [elements_of_data].
  rewrite Hne, Hdicts. cbn [andb]. fold headers.
  set (rows := table_rows float_repr container_repr headers records).
  destruct (TableFacts.create_table_row headers rows None true true k
              (map (fun key => to_str (Py.get record key (Py.VStr "")))
                   headers))
    as (table & Heq & Hlen & Hnth).
  - apply TableFacts.default_widths_cover.
  - apply table_rows_nth, Hk.
  - exists table. eexists. eexists.
    split; [exact Heq |]. split.
    { rewrite Hlen. unfold rows, table_rows. rewrite length_map. reflexivity. }
    split; [exact Hnth |]. split.
    { cbn [row_texts row_columns_of].
      rewrite TableFacts.data_columns_texts.
      cbn [resolve_widths]. rewrite repeat_length.
      rewrite firstn_all2 by (rewrite length_map; lia). reflexivity. }
    split; [apply length_map |]. split; [reflexivity |].
    intros j key Hj Hmiss. rewrite nth_error_map, Hj. cbn.
    unfold Py.get. rewrite Hmiss. reflexivity.
Qed.

Lemma create_list_from_texts (lines : list string) :
  forall i,
    map element_text (create_list_from i lines false) =
    map (fun line => Some (bullet_prefix ++ line)) lines.
Proof.
  induction lines as [| x rest IH]; intros i; [reflexivity |].
  cbn [create_list_from map]. rewrite IH. reflexivity.
Qed.

(** X8: for a list that is empty or has an element that is not a map,
    [from_json] returns one bullet line per element, in order, each the
    bullet prefix followed by the element's text; the empty list gives
    no element. *)
Theorem plain_list_gives_bullet_lines
    (input : Py.value) (items : list Py.value) :
  parse_input json_loads input = Some (Py.VList items) ->
  items = [] \/ forallb Py.is_dict items = false ->
  exists elements,
    run input = Py.Returned elements /\
    List.length elements = List.length items /\
    map element_text elements =
      map (fun v => Some (bullet_prefix ++ to_str v)) items.
Proof.
  intros Hparse Hplain. unfold from_json. rewrite Hparse.
  cbn [elements_of_data].
  replace (negb (Nat.eqb (List.length items) 0) && forallb Py.is_dict items)
    with false.
  - eexists. split; [reflexivity |]. unfold create_list. split.
    + rewrite ListTableFacts.create_list_from_length. apply length_map.
    + rewrite create_list_from_texts, map_map. reflexivity.
  - destruct Hplain as [-> | ->]; [reflexivity |].
    symmetry. apply andb_false_r.
Qed.

(** X9: for a map [from_json] returns a single fact set with one fact
    per entry, in the entries' order; each fact is titled by its key,
    and an entry whose value is a string keeps that string as the
    fact's value. *)
Theorem map_gives_one_fact_per_entry
    (input : Py.value) (entries : list (string * Py.value)) :
  parse_input json_loads input = Some (Py.VDict entries) ->
  exists facts,
    run input = Py.Returned [FactSet facts None] /\
    List.length facts = List.length entries /\
    map fact_title facts = map fst entries /\
    forall k key s,
      nth_error entries k = Some (key, Py.VStr s) ->
      nth_error facts k = Some {| fact_title := key; fact_value := s |}.
Proof.
  intros Hparse. unfold from_json. rewrite Hparse.
  cbn [elements_of_data]. unfold create_fact_set.
  eexists. split; [reflexivity |].
  rewrite !length_map, !map_map. repeat split.
  intros k key s Hk. rewrite !nth_error_map, Hk. reflexivity.
Qed.

End Dispatch.

Lemma record_rows_are_full_width_witness :
  exists table row cells,
    from_json Sample.json_loads Sample.json_dumps_indent2 Sample.float_repr
              Sample.container_repr Sample.list_of_set_fifo
              (Py.VList [Py.VDict [("name", Py.VStr "John"); ("age", Py.VInt 30)];
                         Py.VDict [("role", Py.VStr "Dev")]])
      = Py.Returned table /\
    List.length table = 3 /\
    nth_error table 2 = Some row /\
    row_texts row = Some cells /\
    List.length cells = 3 /\
    cells = [""; ""; "Dev"] /\
    forall j key,
      nth_error ["name"; "age"; "role"] j = Some key ->
      Py.lookup key [("role", Py.VStr "Dev")] = None ->
      nth_error cells j = Some "".
Proof.
  apply (record_rows_are_full_width
           Sample.json_loads Sample.json_dumps_indent2 Sample.float_repr
           Sample.container_repr Sample.list_of_set_fifo
           (Py.VList [Py.VDict [("name", Py.VStr "John"); ("age", Py.VInt 30)];
                      Py.VDict [("role", Py.VStr "Dev")]])
           [Py.VDict [("name", Py.VStr "John"); ("age", Py.VInt 30)];
            Py.VDict [("role", Py.VStr "Dev")]]
           1 (Py.VDict [("role", Py.VStr "Dev")])); reflexivity.
Defined.

Lemma plain_list_gives_bullet_lines_witness :
  exists elements,
    from_json Sample.json_loads Sample.json_dumps_indent2 Sample.float_repr
              Sample.container_repr Sample.list_of_set
              (Py.VList [Py.VStr "a"; Py.VDict []; Py.VInt 3])
      = Py.Returned elements /\
    List.length elements = 3 /\
    map element_text elements =
      map (fun v => Some (bullet_prefix
                          ++ str Sample.float_repr Sample.container_repr v))
          [Py.VStr "a"; Py.VDict []; Py.VInt 3].
Proof.
  apply (plain_list_gives_bullet_lines
           Sample.json_loads Sample.json_dumps_indent2 Sample.float_repr
           Sample.container_repr Sample.list_of_set
           (Py.VList [Py.VStr "a"; Py.VDict []; Py.VInt 3])
           [Py.VStr "a"; Py.VDict []; Py.VInt 3]).
  - reflexivity.
  - right. reflexivity.
Defined.

Lemma map_gives_one_fact_per_entry_witness :
  exists facts,
    from_json Sample.json_loads Sample.json_dumps_indent2 Sample.float_repr
              Sample.container_repr Sample.list_of_set
              (Py.VDict [("Name", Py.VStr "John"); ("Age", Py.VInt 30)])
      = Py.Returned [FactSet facts None] /\
    List.length facts = 2 /\
    map fact_title facts = ["Name"; "Age"] /\
    forall k key s,
      nth_error [("Name", Py.VStr "John"); ("Age", Py.VInt 30)] k
        = Some (key, Py.VStr s) ->
      nth_error facts k = Some {| fact_title := key; fact_value := s |}.
Proof.
  apply (map_gives_one_fact_per_entry
           Sample.json_loads Sample.json_dumps_indent2 Sample.float_repr
           Sample.container_repr Sample.list_of_set
           (Py.VDict [("Name", Py.VStr "John"); ("Age", Py.VInt 30)])
           [("Name", Py.VStr "John"); ("Age", Py.VInt 30)]).
  reflexivity.
Defined.

End DispatchFacts.

(** ** JSON dispatch with library calls that can raise *)

Module CallFacts.

Import DataConnector DataConnectorCalls.


Lemma each_map {A B} (f : A -> answer B) (g : A -> B) (xs : list A) :
  (forall x, In x xs -> f x = Gives (g x)) ->
  each f xs = Gives (map g xs).
Proof.
  induction xs as [| x rest IH]; intros H; [reflexivity |].
  cbn [each map]. rewrite (H x (or_introl eq_refl)).
  rewrite IH by (intros x' Hin; apply H; right; exact Hin).
  reflexivity.
Qed.

Section Calls.

Variable json_loads : string -> loaded.
Variable json_dumps_indent2 : Py.value -> answer string.
Variable int_str : Z -> answer string.
Variable float_repr : Py.float -> string.
Variable container_repr : Py.value -> answer string.
Variable list_of_set : list string -> list string.

Local Abbreviation run :=
  (from_json json_loads json_dumps_indent2 int_str float_repr
             container_repr list_of_set).
Local Abbreviation dispatch :=
  (elements_of_data json_dumps_indent2 int_str float_repr
                    container_repr list_of_set).
Local Abbreviation to_str := (str int_str float_repr container_repr).





(** Where the library calls return, the result is the one of
    [DataConnector.from_json] over the same library functions. *)
Lemma from_json_agrees_when_calls_return (input : Py.value) :
  (forall s class, input = Py.VStr s -> json_loads s <> LoadsRaises class) ->
  (forall n, int_str n = Gives (Py.str_of_int n)) ->
  (forall v, exists text, container_repr v = Gives text) ->
  (forall v, exists text, json_dumps_indent2 v = Gives text) ->
  run input =
  of_outcome
    (DataConnector.from_json
       (decoded json_loads)
       (fun v => text_of (json_dumps_indent2 v))
       float_repr
       (fun v => text_of (container_repr v))
       list_of_set input).
Proof.
  intros Hloads Hint Hrepr Hdumps.
  set (total_str := DataConnector.str float_repr
                      (fun v => text_of (container_repr v))).
  assert (Hstr : forall v, to_str v = Gives (total_str v)).
  { intros v. destruct v as [| [|] | n | f | s | items | entries];
      cbn [str DataConnector.str total_str]; try reflexivity.
    - apply Hint.
    - unfold total_str. cbn [DataConnector.str].
      destruct (Hrepr (Py.VList items)) as (text & ->). reflexivity.
    - unfold total_str. cbn [DataConnector.str].
      destruct (Hrepr (Py.VDict entries)) as (text & ->). reflexivity. }
  assert (Hdispatch : forall data,
             dispatch data =
             of_outcome
               (DataConnector.elements_of_data
                  (fun v => text_of (json_dumps_indent2 v))
                  float_repr
                  (fun v => text_of (container_repr v))
                  list_of_set data)).
  { intros data.
    destruct data as [| b | n | f | s | items | entries];
      cbn [elements_of_data DataConnector.elements_of_data of_outcome];
      try reflexivity.
    - destruct (negb (Nat.eqb (List.length items) 0)
                && forallb Py.is_dict items).
      + unfold table_headers, table_rows.
        rewrite (each_map _
                   (fun item =>
                      map (fun key => total_str (Py.get item key (Py.VStr "")))
                          (list_of_set (all_keys_added items)))).
        * reflexivity.
        * intros item _. unfold table_row. apply each_map.
          intros key _. apply Hstr.
      + rewrite (each_map _ total_str) by (intros item _; apply Hstr).
        reflexivity.
    - rewrite (each_map _
                 (fun kv =>
                    (fst kv,
                     if Py.is_dict (snd kv) || Py.is_list (snd kv)
                     then text_of (json_dumps_indent2 (snd kv))
                     else total_str (snd kv)))).
      + reflexivity.
      + intros kv _. unfold fact_entry, fact_value.
        destruct (Py.is_dict (snd kv) || Py.is_list (snd kv)).
        * destruct (Hdumps (snd kv)) as (text & ->). reflexivity.
        * rewrite Hstr. reflexivity. }
  unfold from_json, DataConnector.from_json, parse_input, decoded.
  destruct input as [| b | n | f | s | items | entries];
    try apply Hdispatch.
  destruct (json_loads s) as [data | | class] eqn:Hl.
  - apply Hdispatch.
  - reflexivity.
  - exfalso. apply (Hloads s class eq_refl Hl).
Qed.

End Calls.

Local Abbreviation sample_run :=
  (from_json SampleCalls.json_loads SampleCalls.json_dumps_indent2
             SampleCalls.int_str Sample.float_repr
             SampleCalls.container_repr Sample.list_of_set).

(** Text nested beyond the decoder's limit: the [RecursionError] of
    [json.loads] leaves [from_json]; text that is not JSON gives the
    error line. *)
Example deep_text_raises :
  sample_run (Py.VStr "[[[[]]]]") = Raises (Library "RecursionError") /\
  sample_run (Py.VStr "11111") = Raises (Library "ValueError") /\
  sample_run (Py.VStr "{") = Returns invalid_json /\
  sample_run (Py.VStr "7") = Returns [].
Proof. repeat split; reflexivity. Qed.

(** A parsed value handed over directly: the [ValueError] of [str] on a
    long integer and the [RecursionError] of [json.dumps] on a deep
    value leave [from_json] as well. *)
Example parsed_value_raises :
  sample_run (Py.VList [Py.VInt 7; Py.VInt 123456]) =
    Raises (Library "ValueError") /\
  sample_run
    (Py.VDict [("name", Py.VStr "a");
               ("deep", Py.VList [Py.VList [Py.VList []]])]) =
    Raises (Library "RecursionError") /\
  sample_run (Py.VList [Py.VDict [("n", Py.VInt 7)];
                        Py.VDict [("n", Py.VInt 123456)]]) =
    Raises (Library "ValueError").
Proof. repeat split; reflexivity. Qed.

End CallFacts.

(** ** Inputs, columns and card builders *)

Module BuilderFacts.

Import Raise.

(** *** Choice sets *)

Import ElementFactoryInputs.

Lemma item_ok_or_key_error (d : list (string * string)) (key : string) :
  (exists v, item d key = Ok v) \/ item d key = Error (KeyError key).
Proof.
  induction d as [| [k v] rest IH]; cbn; [right; reflexivity |].
  destruct (String.eqb k key); [left; eexists; reflexivity | exact IH].
Qed.

Lemma choice_objects_spec (choices : list choice_arg) :
  match choice_objects choices with
  | Ok objects =>
      Forall well_keyed choices /\
      map Some objects = map intended choices
  | Error e =>
      (e = KeyError "title" \/ e = KeyError "value") /\
      ~ Forall well_keyed choices
  end.
Proof.
  induction choices as [| c rest IH]; cbn [choice_objects].
  - split; [constructor | reflexivity].
  - destruct c as [o | d].
    + destruct (choice_objects rest) as [objects | e]; cbn [and_then].
      * destruct IH as [Hall Hmap]. split.
        -- constructor; [exact I | exact Hall].
        -- cbn. rewrite Hmap. reflexivity.
      * destruct IH as [He Hnot]. split; [exact He |].
        intros Hall. inversion Hall; subst. contradiction.
    + destruct (item_ok_or_key_error d "title") as [[t Ht] | Ht];
        rewrite Ht; cbn [and_then].
      2:{ split; [left; reflexivity |].
          intros Hall. inversion Hall as [| ? ? Hw _]; subst.
          destruct Hw as [[t' Ht'] _]. congruence. }
      destruct (item_ok_or_key_error d "value") as [[v Hv] | Hv];
        rewrite Hv; cbn [and_then].
      2:{ split; [right; reflexivity |].
          intros Hall. inversion Hall as [| ? ? Hw _]; subst.
          destruct Hw as [_ [v' Hv']]. congruence. }
      destruct (choice_objects rest) as [objects | e]; cbn [and_then].
      * destruct IH as [Hall Hmap]. split.
        -- constructor; [| exact Hall].
           split; eexists; eassumption.
        -- cbn [map intended]. rewrite Ht, Hv, Hmap. reflexivity.
      * destruct IH as [He Hnot]. split; [exact He |].
        intros Hall. inversion Hall; subst. contradiction.
Qed.

(** X10: [create_choice_set] keeps the choices in order, passing choice
    objects through and turning each dictionary into the choice of its
    "title" and "value"; it raises [KeyError] ("title" or "value")
    exactly when some dictionary lacks one of the two keys. *)
Theorem choice_set_converts_or_key_error
    (id : string) (choices : list choice_arg) (placeholder : option string)
    (is_required is_multi_select : bool) :
  match create_choice_set id choices placeholder is_required is_multi_select with
  | Ok input =>
      Forall well_keyed choices /\
      map Some (ics_choices input) = map intended choices /\
      List.length (ics_choices input) = List.length choices /\
      ics_id input = id /\
      ics_is_required input = is_required /\
      ics_is_multi_select input = is_multi_select
  | Error e =>
      (e = KeyError "title" \/ e = KeyError "value") /\
      ~ Forall well_keyed choices
  end.
Proof.
  unfold create_choice_set.
  pose proof (choice_objects_spec choices) as H.
  destruct (choice_objects choices) as [objects | e]; cbn [and_then].
  - destruct H as [Hall Hmap]. cbn. repeat split; try assumption.
    rewrite <- (length_map Some objects), Hmap. apply length_map.
  - exact H.
Qed.

(** *** Columns *)

Import LayoutHelperColumns.

Lemma equal_columns_shape (column_contents : list (list Element)) :
  map column_items (equal_columns column_contents) = column_contents /\
  Forall (fun c => column_width c = Some (WInt 1))
         (equal_columns column_contents).
Proof.
  induction column_contents as [| content rest [IHitems IHwidths]]; cbn.
  - split; constructor.
  - rewrite IHitems. split; [reflexivity |]. constructor; [reflexivity | exact IHwidths].
Qed.

(** X11: [create_equal_columns] returns a column set with one column per
    content list, in the given order and holding exactly that content,
    every column of weight 1; the two-column layout with its default
    widths is the equal-columns layout of its two contents. *)
Theorem equal_columns_keep_contents
    (column_contents : list (list Element)) (spacing : option types.Spacing) :
  let layout := create_equal_columns column_contents spacing in
  map column_items (columns_of layout) = column_contents /\
  List.length (columns_of layout) = List.length column_contents /\
  Forall (fun c => column_width c = Some (WInt 1)) (columns_of layout) /\
  forall left_content right_content,
    column_contents = [left_content; right_content] ->
    create_two_column_layout left_content right_content
                             (WInt 1) (WInt 1) spacing = layout.
Proof.
  cbn. destruct (equal_columns_shape column_contents) as [Hitems Hwidths].
  repeat split.
  - exact Hitems.
  - rewrite <- Hitems at 2. rewrite length_map. reflexivity.
  - exact Hwidths.
  - intros l r ->. reflexivity.
Qed.

(** *** The agent card builder *)

Import AgentCardBuilder.

(** X12: the basic card has the given version and no actions; its body
    is the title block (large, bolder) and the wrapped message block,
    followed by an image of the given URL exactly when the URL is given
    and not empty. *)
Theorem basic_card_body
    (self_version title message : string) (image_url : option string) :
  let card := create_basic_card self_version title message image_url in
  version card = self_version /\
  actions card = [] /\
  List.length (body_or_empty card) = (if truthy image_url then 3 else 2) /\
  map DataConnectorMore.element_text (firstn 2 (body_or_empty card)) =
    [Some title; Some message] /\
  existsb has_url (body_or_empty card) = truthy image_url /\
  (forall url, image_url = Some url -> truthy image_url = true ->
     nth_error (body_or_empty card) 2 =
     Some (EImage (ElementFactoryInputs.create_image url None None None))).
Proof.
  destruct image_url as [url |]; cbn.
  - destruct (String.eqb url ""); cbn; repeat split;
      intros u Hu Ht; try discriminate.
    injection Hu as ->. reflexivity.
  - repeat split. intros u Hu. discriminate.
Qed.

Lemma key_ok_or_error (name : string) (field : option string) :
  match field with
  | Some v => key name field = Ok v
  | None => key name field = Error (KeyError name)
  end.
Proof. destruct field; reflexivity. Qed.





(** X14: the builder's [validate_card] and the utility's [validate],
    run on the same validator state, agree on the validity flag, the
    details and the size, and leave the validator in the same state. *)
Theorem validate_card_agrees_with_validate
    (V : validation.CardValidator) (format_2f : Py.float -> string)
    (st : validation.state V) (builder_version target : string)
    (card : AdaptiveCard) :
  let by_builder :=
    validate_card V {| AgentCardBuilder.builder_version := builder_version;
                       builder_validator := st |} card in
  let by_utility :=
    ValidationUtility.validate V format_2f
      {| ValidationUtility.target := target;
         ValidationUtility.validator := st |} card in
  cr_valid (snd by_builder) = ValidationUtility.valid (snd by_utility) /\
  cr_details (snd by_builder) =
    ValidationUtility.report_details (snd by_utility) /\
  cr_size (snd by_builder) = ValidationUtility.size (snd by_utility) /\
  builder_validator (fst by_builder) =
    ValidationUtility.validator (fst by_utility).
Proof.
  unfold validate_card, ValidationUtility.validate. cbn.
  destruct (validation.validate V st card) as [v1 r1].
  destruct (validation.card_size V v1 card) as [v2 s2].
  repeat split.
Qed.

(** *** The notification template *)

Import TemplateFactory.

Lemma color_map_known (level : string) (c : types.Colors) :
  color_map level = Some c ->
  level = "info" \/ level = "warning" \/ level = "success" \/ level = "danger".
Proof.
  unfold color_map.
  destruct (String.eqb_spec level "info"); [auto |].
  destruct (String.eqb_spec level "warning"); [auto |].
  destruct (String.eqb_spec level "success"); [auto |].
  destruct (String.eqb_spec level "danger"); [auto | discriminate].
Qed.

(** X15: the notification card has version 1.5 and a body of two
    elements.  The first is the level-1 heading of the title, or, when an
    icon URL is given and not empty, a two-column set with the heading
    in a "stretch" column and the small icon in an "auto" column.  The
    second is the wrapped message, coloured only for the levels info,
    warning, success and danger.  There is one "View Details" action
    exactly when an action URL is given and not empty. *)
Theorem notification_card_layout
    (title message : string) (level icon_url action_url : option string) :
  let card := create_notification_card title message level icon_url action_url in
  let heading := ETextBlock (ElementFactory.create_heading title 1) in
  version card = "1.5" /\
  List.length (body_or_empty card) = 2 /\
  nth_error (body_or_empty card) 0 =
    Some (match icon_url with
          | Some url =>
              if truthy icon_url then
                ColumnSet
                  [ MkColumn [heading] (Some (WStr "stretch")) None None None;
                    MkColumn
                      [EImage (ElementFactoryInputs.create_image url None
                                 (Some types.ImageSize_SMALL) None)]
                      (Some (WStr "auto")) None None None ]
                  None (Some false) None
              else heading
          | None => heading
          end) /\
  (exists t, nth_error (body_or_empty card) 1 = Some (ETextBlock t) /\
             tb_text t = message /\ tb_wrap t = Some true /\
             tb_color t = message_color level /\
             (forall c, tb_color t = Some c ->
                level = Some "info" \/ level = Some "warning" \/
                level = Some "success" \/ level = Some "danger")) /\
  List.length (actions card) = (if truthy action_url then 1 else 0) /\
  (forall a, In a (actions card) ->
     exists url, action_url = Some url /\ a = ActionOpenUrl "View Details" url).
Proof.
  intros card heading. subst card heading.
  split; [reflexivity |]. split; [reflexivity |]. split.
  { cbn. destruct icon_url as [url |]; [| reflexivity].
    cbn. destruct (String.eqb url ""); reflexivity. }
  split.
  { eexists. split; [reflexivity |].
    split; [reflexivity |]. split; [reflexivity |]. split; [reflexivity |].
    cbn [tb_color notification_message].
    intros c Hc. destruct level as [l |]; [| discriminate].
    cbn in Hc. apply color_map_known in Hc.
    destruct Hc as [-> | [-> | [-> | ->]]]; auto. }
  split.
  { cbn. destruct action_url as [url |]; [| reflexivity].
    cbn. destruct (String.eqb url ""); reflexivity. }
  intros a Ha. cbn in Ha. destruct action_url as [url |]; [| contradiction].
  cbn in Ha. destruct (String.eqb url ""); [contradiction |].
  destruct Ha as [<- | []]. eexists. split; reflexivity.
Qed.

End BuilderFacts.

(** ** Validation reports *)

Module ReportFacts.

Import validation ValidationUtility ReportReading.

Section Reports.

Variable V : CardValidator.
Variable format_2f : Py.float -> string.

(** The report in terms of one run of the validator. *)
Lemma validate_report (self : t V) (card : AdaptiveCard) :
  exists st result sz fs,
    Contract.run V (validator self) card = (st, (result, sz, fs)) /\
    let limit := target_size_limit V self in
    let near := near_limit sz limit in
    snd (validate V format_2f self card) =
    {| valid := result_is_success result;
       report_details := map failure fs;
       size := sz;
       size_limit := limit;
       warnings :=
         (if near then [approaching_warning format_2f sz limit] else [])
         ++ (if negb (existsb has_truthy_id (body_or_empty card))
             then [no_ids_warning] else []);
       suggestions :=
         finding_suggestions (version card) fs
         ++ (if near then [optimize_suggestion] else []) |}%list.
Proof.
  unfold validate, Contract.run, near_limit.
  destruct (validation.validate V (validator self) card) as [v1 r1].
  destruct (validation.card_size V v1 card) as [v2 sz].
  exists v2, r1, sz, (details V v2). split; [reflexivity |].
  cbn [snd].
  destruct (Py.fgt sz _ && Py.fle sz _);
    destruct (negb (existsb has_truthy_id (body_or_empty card)));
    cbn [app]; rewrite ?app_nil_r; reflexivity.
Qed.

(** X16: the report warns that no element has an ID exactly when no
    top-level body element has an ID that is present and not empty;
    elements nested in containers are not looked at. *)
Theorem no_ids_warning_iff_no_top_level_id
    (self : t V) (card : AdaptiveCard) :
  In no_ids_warning (warnings (snd (validate V format_2f self card))) <->
  existsb has_truthy_id (body_or_empty card) = false.
Proof.
  destruct (validate_report self card) as (st & result & sz & fs & _ & ->).
  cbn [warnings]. rewrite in_app_iff.
  destruct (existsb has_truthy_id (body_or_empty card)); cbn [negb].
  - split; [| discriminate].
    intros [H | H]; [| contradiction].
    destruct (near_limit _ _); [| contradiction].
    destruct H as [H | H]; [discriminate H | contradiction].
  - split; [reflexivity |]. intros _. right. left. reflexivity.
Qed.

Lemma finding_suggestions_members (v : string) (fs : list Finding) (s : string) :
  In s (finding_suggestions v fs) ->
  s = empty_card_suggestion \/ s = version_suggestion v \/
  In s size_limit_suggestions.
Proof.
  induction fs as [| f rest IH]; cbn [finding_suggestions]; [contradiction |].
  rewrite in_app_iff. intros [H | H]; [| apply IH, H].
  destruct (failure f).
  - destruct H as [<- | H]; [auto | contradiction].
  - destruct H as [<- | H]; [auto | contradiction].
  - auto.
Qed.

Lemma approaching_warning_iff_near (self : t V) (card : AdaptiveCard) :
  let r := snd (validate V format_2f self card) in
  In (approaching_warning format_2f (size r) (size_limit r)) (warnings r)
  <-> near_limit (size r) (size_limit r) = true.
Proof.
  destruct (validate_report self card) as (st & result & sz & fs & _ & ->).
  cbn [warnings size size_limit]. rewrite in_app_iff.
  destruct (near_limit sz (target_size_limit V self)); split.
  - reflexivity.
  - intros _. left. left. reflexivity.
  - intros [H | H]; [contradiction |].
    destruct (negb _); [| contradiction].
    destruct H as [H | H]; [discriminate H | contradiction].
  - discriminate.
Qed.

Lemma optimize_suggestion_iff_near (self : t V) (card : AdaptiveCard) :
  let r := snd (validate V format_2f self card) in
  In optimize_suggestion (suggestions r)
  <-> near_limit (size r) (size_limit r) = true.
Proof.
  destruct (validate_report self card) as (st & result & sz & fs & _ & ->).
  cbn [suggestions size size_limit]. rewrite in_app_iff.
  destruct (near_limit sz (target_size_limit V self)); split.
  - reflexivity.
  - intros _. right. left. reflexivity.
  - intros [H | H]; [| contradiction].
    apply finding_suggestions_members in H.
    destruct H as [H | [H | H]]; try discriminate H.
    cbn in H. repeat (destruct H as [H | H]; [discriminate H |]).
    contradiction.
  - discriminate.
Qed.

(** X17: the "approaching the limit" warning and the "consider
    optimizing" suggestion come together, exactly when the size is
    above 0.8 of the reported limit and not above the limit. *)
Theorem near_limit_warning_and_suggestion
    (self : t V) (card : AdaptiveCard) :
  let r := snd (validate V format_2f self card) in
  (In (approaching_warning format_2f (size r) (size_limit r)) (warnings r)
   <-> near_limit (size r) (size_limit r) = true) /\
  (In optimize_suggestion (suggestions r)
   <-> near_limit (size r) (size_limit r) = true).
Proof.
  split.
  - apply approaching_warning_iff_near.
  - apply optimize_suggestion_iff_near.
Qed.

Lemma finding_suggestions_length (v : string) (fs : list Finding) :
  List.length (finding_suggestions v fs) =
  count_detail EMPTY_CARD (map failure fs)
  + count_detail INVALID_FIELD_VERSION (map failure fs)
  + 4 * count_detail SIZE_LIMIT_EXCEEDED (map failure fs).
Proof.
  unfold count_detail.
  induction fs as [| f rest IH]; [reflexivity |].
  cbn [finding_suggestions map filter]. rewrite length_app, IH.
  destruct (failure f); cbn; lia.
Qed.

(** X18: the number of suggestions in a report is one per
    [EMPTY_CARD] detail, one per [INVALID_FIELD_VERSION] detail and four
    per [SIZE_LIMIT_EXCEEDED] detail, plus one when the size is near
    the limit; a report without details whose size is not near the
    limit has no suggestions. *)
Theorem suggestions_counted_by_details
    (self : t V) (card : AdaptiveCard) :
  let r := snd (validate V format_2f self card) in
  List.length (suggestions r) =
    count_detail EMPTY_CARD (report_details r)
    + count_detail INVALID_FIELD_VERSION (report_details r)
    + 4 * count_detail SIZE_LIMIT_EXCEEDED (report_details r)
    + (if near_limit (size r) (size_limit r) then 1 else 0) /\
  (report_details r = [] ->
   near_limit (size r) (size_limit r) = false ->
   suggestions r = []).
Proof.
  destruct (validate_report self card) as (st & result & sz & fs & _ & ->).
  cbn [warnings suggestions size size_limit report_details].
  split.
  - rewrite length_app, finding_suggestions_length.
    destruct (near_limit _ _); reflexivity.
  - intros Hnil ->. destruct fs; [reflexivity | discriminate Hnil].
Qed.

(** X19: when the validator measures a card the same in every state,
    [get_size] returns the size that [validate] reports. *)
Theorem get_size_is_reported_size (self : t V) (card : AdaptiveCard) :
  measures_by_card V ->
  snd (get_size V self card) = size (snd (validate V format_2f self card)).
Proof.
  intros Hm. unfold get_size, validate.
  destruct (validation.validate V (validator self) card) as [v1 r1].
  specialize (Hm (validator self) v1 card).
  destruct (validation.card_size V (validator self) card) as [v0 s0].
  destruct (validation.card_size V v1 card) as [v2 s2].
  exact Hm.
Qed.

End Reports.

Lemma teams_validator_measures_by_card size_kb newer :
  measures_by_card (TeamsValidator.teams_validator size_kb newer).
Proof. intros st st' card. reflexivity. Qed.

(** A size above 0.8 of a limit is above 0.7 of it, for the two limits
    in use. *)
Lemma above_08_above_07 (limit : Z) (sz : Py.float) :
  limit = 28%Z \/ limit = 40%Z ->
  Py.fgt sz (Py.fmul (Py.float_of_int limit) Py.lit_0_8) = true ->
  Py.fgt sz (Py.fmul (Py.float_of_int limit) Py.lit_0_7) = true.
Proof.
  unfold Py.fgt, SFltb. intros [-> | ->].
  - replace (Py.fmul (Py.float_of_int 28) Py.lit_0_8)
      with (S754_finite false 6305039478318695 (-48))
      by (vm_compute; reflexivity).
    replace (Py.fmul (Py.float_of_int 28) Py.lit_0_7)
      with (S754_finite false 5516909543528857 (-48))
      by (vm_compute; reflexivity).
    destruct sz as [s | s | | s m e]; cbn -[Z.compare Pos.compare_cont];
      try discriminate.
    + destruct s; [discriminate | reflexivity].
    + destruct s; [discriminate |].
      destruct (Z.compare_spec (-48) e) as [<- | Hlt | Hgt];
        [| reflexivity | discriminate].
      change (Pos.compare_cont Eq 6305039478318695 m)
        with (Pos.compare 6305039478318695 m).
      change (Pos.compare_cont Eq 5516909543528857 m)
        with (Pos.compare 5516909543528857 m).
      destruct (Pos.compare_spec 6305039478318695 m) as [E | H1 | H1];
        try discriminate.
      intros _.
      destruct (Pos.compare_spec 5516909543528857 m) as [E | H2 | H2];
        [| reflexivity |]; exfalso.
      * subst m. vm_compute in H1. discriminate H1.
      * apply (Pos.lt_irrefl m). eapply Pos.lt_trans; [exact H2 |].
        eapply Pos.lt_trans; [| exact H1]. reflexivity.
  - replace (Py.fmul (Py.float_of_int 40) Py.lit_0_8)
      with (S754_finite false 4503599627370496 (-47))
      by (vm_compute; reflexivity).
    replace (Py.fmul (Py.float_of_int 40) Py.lit_0_7)
      with (S754_finite false 7881299347898368 (-48))
      by (vm_compute; reflexivity).
    destruct sz as [s | s | | s m e]; cbn -[Z.compare Pos.compare_cont];
      try discriminate.
    + destruct s; [discriminate | reflexivity].
    + destruct s; [discriminate |].
      destruct (Z.compare_spec (-47) e) as [<- | Hlt | Hgt].
      * intros _. reflexivity.
      * intros _. destruct (Z.compare_spec (-48) e) as [<- | Hlt' | Hgt'];
          [lia | reflexivity | lia].
      * discriminate.
Qed.

(** X20: with a validator that measures a card the same in every
    state, a card for which [validate] warns that the size approaches
    the limit gets optimization suggestions, the first of them the line
    reporting its size. *)
Theorem near_limit_card_gets_optimizations
    (V : CardValidator) (format_2f format_1f : Py.float -> string)
    (self : t V) (card : AdaptiveCard) :
  measures_by_card V ->
  let r := snd (validate V format_2f self card) in
  In (approaching_warning format_2f (size r) (size_limit r)) (warnings r) ->
  exists rest,
    snd (suggest_optimizations V format_2f format_1f self card) =
    size_summary format_2f format_1f (size r) (size_limit r) :: rest.
Proof.
  intros Hm r Hwarn.
  apply (proj1 (approaching_warning_iff_near V format_2f self card))
    in Hwarn.
  subst r. revert Hwarn.
  unfold validate, suggest_optimizations, near_limit.
  destruct (validation.validate V (validator self) card) as [v1 r1].
  specialize (Hm (validator self) v1 card).
  destruct (validation.card_size V (validator self) card) as [v0 s0].
  destruct (validation.card_size V v1 card) as [v2 s2].
  cbn [snd size size_limit] in *. subst s2.
  intros Hnear. apply andb_prop in Hnear. destruct Hnear as [Hgt _].
  rewrite (above_08_above_07 (target_size_limit V self) s0
             (ValidationFacts.limit_is_28_or_40 V self) Hgt).
  eexists. reflexivity.
Qed.

Lemma near_limit_card_gets_optimizations_witness :
  exists rest,
    snd (suggest_optimizations Sample.validator Sample.format_float
           Sample.format_float (Sample.utility "teams")
           (Sample.card_of (Sample.notes 8))) =
    size_summary Sample.format_float Sample.format_float
      (size (snd (validate Sample.validator Sample.format_float
                    (Sample.utility "teams")
                    (Sample.card_of (Sample.notes 8)))))
      (size_limit (snd (validate Sample.validator Sample.format_float
                          (Sample.utility "teams")
                          (Sample.card_of (Sample.notes 8)))))
    :: rest.
Proof.
  apply (near_limit_card_gets_optimizations Sample.validator
           Sample.format_float Sample.format_float
           (Sample.utility "teams") (Sample.card_of (Sample.notes 8))).
  - apply teams_validator_measures_by_card.
  - vm_compute. left. reflexivity.
Defined.

Lemma get_size_is_reported_size_witness :
  snd (get_size Sample.validator (Sample.utility "teams")
         (Sample.card_of (Sample.notes 5)))
  = size (snd (validate Sample.validator Sample.format_float
                 (Sample.utility "teams") (Sample.card_of (Sample.notes 5)))).
Proof.
  apply (get_size_is_reported_size Sample.validator Sample.format_float
           (Sample.utility "teams") (Sample.card_of (Sample.notes 5))).
  apply teams_validator_measures_by_card.
Defined.

End ReportFacts.

(** ** Delivery *)

Module DeliveryFacts.

Import Raise validation DeliveryManager.

Section Delivery.

Variable V : CardValidator.
Variable teams : state V.
Variable format_2f : Py.float -> string.
Variable post : TeamsClient -> AdaptiveCard -> string + Response.

Local Abbreviation new := (init V teams).
Local Abbreviation deliver := (send V format_2f post).

Lemma init_cases (url : option string) (name : string) :
  new url name =
  if truthy url then
    if String.eqb (Py.lower name) "teams" then
      Ok {| platform := Py.lower name; webhook_url := url;
            validation_utility :=
              {| ValidationUtility.target := name;
                 ValidationUtility.validator := teams |};
            client := Some {| client_url := url |} |}
    else Error (ValueError ("Unsupported platform: " ++ Py.lower name))
  else
    Ok {| platform := Py.lower name; webhook_url := url;
          validation_utility :=
            {| ValidationUtility.target := name;
               ValidationUtility.validator := teams |};
          client := None |}.
Proof.
  unfold init, ValidationUtility.init.
  destruct (String.eqb (Py.lower name) "teams") eqn:E;
    destruct (truthy url); unfold initialize_client; cbn [platform];
    rewrite ?E; reflexivity.
Qed.

Lemma send_keeps_client (m : t V) (card : AdaptiveCard) (validate : bool) :
  client (fst (fst (deliver m card validate))) = client m /\
  platform (fst (fst (deliver m card validate))) = platform m.
Proof.
  unfold send.
  destruct (client m) as [c |] eqn:Ec; [| cbn; auto].
  destruct validate.
  - unfold validate_before_send.
    destruct (ValidationUtility.validate V format_2f (validation_utility m) card)
      as [u r].
    destruct (negb (ValidationUtility.valid r)); [cbn; auto |].
    destruct (post c card); cbn; auto.
  - cbn [negb]. destruct (post c card); cbn; auto.
Qed.

(** X21: a delivery manager holds a client only on the platform
    "teams": this is so after construction and stays so under
    [set_webhook_url] and [send]. *)
Theorem client_only_on_teams_invariant :
  (forall url name m,
     new url name = Ok m -> client_only_on_teams V m) /\
  (forall m url,
     client_only_on_teams V m ->
     client_only_on_teams V (fst (set_webhook_url V m url))) /\
  (forall m card validate,
     client_only_on_teams V m ->
     client_only_on_teams V (fst (fst (deliver m card validate)))).
Proof.
  unfold client_only_on_teams. split; [| split].
  - intros url name m. rewrite init_cases.
    destruct (truthy url).
    + destruct (String.eqb_spec (Py.lower name) "teams") as [E | E];
        [| discriminate].
      intros [= <-] _. exact E.
    + intros [= <-] H. contradiction H. reflexivity.
  - intros m url Hinv. unfold set_webhook_url, initialize_client.
    cbn [platform].
    destruct (String.eqb_spec (platform m) "teams") as [E | E]; cbn.
    + intros _. exact E.
    + exact Hinv.
  - intros m card validate Hinv.
    destruct (send_keeps_client m card validate) as [-> ->]. exact Hinv.
Qed.

(** X22: on a platform other than "teams" nothing is ever sent.
    Construction with a non-empty webhook URL raises [ValueError] with
    the message "Unsupported platform: " followed by the lower-cased
    platform name; without one it gives a manager that has no client,
    on which [set_webhook_url] raises [ValueError] with that message
    after recording the URL, and [send] hands no card to a client and
    reports that no webhook URL is configured.  The name shown in the
    message is given for ASCII platform names. *)
Theorem unsupported_platform_never_sends
    (url : option string) (name : string) :
  String.eqb (Py.lower name) "teams" = false ->
  match new url name with
  | Error e =>
      truthy url = true /\
      exists shown,
        e = ValueError ("Unsupported platform: " ++ shown) /\
        (Text.is_ascii name = true -> shown = Py.lower name)
  | Ok m =>
      truthy url = false /\
      client m = None /\
      (forall new_url,
         (exists shown,
            snd (set_webhook_url V m new_url) =
              Error (ValueError ("Unsupported platform: " ++ shown)) /\
            (Text.is_ascii name = true -> shown = Py.lower name)) /\
         client (fst (set_webhook_url V m new_url)) = None /\
         webhook_url (fst (set_webhook_url V m new_url)) = Some new_url) /\
      (forall card validate,
         deliver m card validate =
         (m,
          {| success := false; status := Some None;
             message := "No webhook URL configured. Use set_webhook_url() first.";
             validation := None |},
          []))
  end.
Proof.
  intros Hname. rewrite init_cases, Hname.
  destruct (truthy url).
  - split; [reflexivity |]. eexists. split; [reflexivity |].
    intros _. reflexivity.
  - split; [reflexivity |]. split; [reflexivity |]. split.
    + intros new_url. unfold set_webhook_url, initialize_client.
      cbn [platform]. rewrite Hname. cbn. split; [| split; reflexivity].
      eexists. split; [reflexivity |]. intros _. reflexivity.
    + intros card validate. reflexivity.
Qed.

(** X23: with validation requested, a card whose report is not valid
    is not handed to the client: the result says that validation
    failed, has no status code and carries the report. *)
Theorem invalid_card_is_not_sent
    (m : t V) (c : TeamsClient) (card : AdaptiveCard) :
  client m = Some c ->
  let report :=
    snd (ValidationUtility.validate V format_2f (validation_utility m) card) in
  ValidationUtility.valid report = false ->
  let '(_, result, handed) := deliver m card true in
  handed = [] /\
  success result = false /\
  status result = None /\
  message result = validation_failed_message /\
  validation result = Some report.
Proof.
  intros Hc report Hinvalid. subst report. unfold send. rewrite Hc.
  unfold validate_before_send.
  destruct (ValidationUtility.validate V format_2f (validation_utility m) card)
    as [u r].
  cbn [snd] in Hinvalid. rewrite Hinvalid. cbn. repeat split.
Qed.

(** X24: [send] hands the card to the client at most once, and it
    reports success exactly when it did so and the response status is
    in the range 200..299; the result then carries that status and
    the delivered message.  Without validation a manager that has a
    client always hands the card over. *)
Theorem send_succeeds_iff_2xx
    (m : t V) (card : AdaptiveCard) (validate : bool) :
  let '(_, result, handed) := deliver m card validate in
  (success result = true <->
   exists c response,
     client m = Some c /\
     handed = [(c, card)] /\
     post c card = inr response /\
     (200 <= status_code response < 300)%Z /\
     status result = Some (Some (status_code response)) /\
     message result = delivered_message) /\
  List.length handed <= 1 /\
  (forall c, validate = false -> client m = Some c -> handed = [(c, card)]).
Proof.
  unfold send.
  destruct (client m) as [c |] eqn:Ec.
  2:{ cbn. split; [| split; [lia | discriminate]].
      split; [discriminate | intros (c & r & H & _); discriminate H]. }
  assert (Hdone :
    forall v,
      (false = true <->
       exists c0 response,
         Some c = Some c0 /\
         @nil (TeamsClient * AdaptiveCard) = [(c0, card)] /\
         post c0 card = inr response /\
         (200 <= status_code response < 300)%Z /\
         @None (option Z) = Some (Some (status_code response)) /\
         v = delivered_message)).
  { intros v. split; [discriminate |].
    intros (c0 & r0 & _ & H & _). discriminate H. }
  assert (Hposted :
    forall v,
      let '(result, handed) :=
        match post c card with
        | inr response =>
            let ok := Z.leb 200 (status_code response)
                      && Z.ltb (status_code response) 300 in
            ({| success := ok;
                status := Some (Some (status_code response));
                message := if ok then delivered_message
                           else "Delivery failed: " ++ text response;
                validation := v |},
             [(c, card)])
        | inl e =>
            ({| success := false; status := None;
                message := "Error delivering card: " ++ e;
                validation := v |},
             [(c, card)])
        end in
      (success result = true <->
       exists c0 response,
         Some c = Some c0 /\
         handed = [(c0, card)] /\
         post c0 card = inr response /\
         (200 <= status_code response < 300)%Z /\
         status result = Some (Some (status_code response)) /\
         message result = delivered_message) /\
      handed = [(c, card)]).
  { intros v. destruct (post c card) as [e | response] eqn:Ep.
    - cbn. split; [| reflexivity]. split; [discriminate |].
      intros (c0 & r0 & [= <-] & _ & Hp & _). congruence.
    - cbn. split; [| reflexivity].
      destruct (Z.leb_spec 200 (status_code response)) as [Hlo | Hlo];
        destruct (Z.ltb_spec (status_code response) 300) as [Hhi | Hhi];
        cbn.
      + split; [| reflexivity]. intros _.
        exists c, response. repeat split; try assumption; reflexivity.
      + split; [discriminate |].
        intros (c0 & r0 & [= <-] & _ & Hp & Hr & _).
        rewrite Ep in Hp. injection Hp as <-. lia.
      + split; [discriminate |].
        intros (c0 & r0 & [= <-] & _ & Hp & Hr & _).
        rewrite Ep in Hp. injection Hp as <-. lia.
      + split; [discriminate |].
        intros (c0 & r0 & [= <-] & _ & Hp & Hr & _).
        rewrite Ep in Hp. injection Hp as <-. lia. }
  destruct validate.
  - unfold validate_before_send.
    destruct (ValidationUtility.validate V format_2f (validation_utility m) card)
      as [u r].
    destruct (negb (ValidationUtility.valid r)).
    + cbn. split; [apply Hdone |]. split; [lia | discriminate].
    + specialize (Hposted (Some r)).
      destruct (post c card) as [e | response];
        destruct Hposted as (H1 & H3); cbn in H3 |- *;
        (split; [exact H1 |]); (split; [lia | discriminate]).
  - cbn [negb]. specialize (Hposted None).
    destruct (post c card) as [e | response];
      destruct Hposted as (H1 & H3); cbn in H3 |- *;
      (split; [exact H1 |]); (split; [lia |]);
      intros c0 _ [= <-]; reflexivity.
Qed.

(** X25: on "teams" the constructor builds a client exactly when the
    webhook URL is given and not empty, whereas [set_webhook_url]
    builds one for any URL, the empty string included, and records
    the URL. *)
Theorem client_creation_on_teams (url : option string) (name : string) :
  String.eqb (Py.lower name) "teams" = true ->
  exists m,
    new url name = Ok m /\
    platform m = "teams" /\
    webhook_url m = url /\
    client m = (if truthy url then Some {| client_url := url |} else None) /\
    forall new_url,
      snd (set_webhook_url V m new_url) = Ok tt /\
      client (fst (set_webhook_url V m new_url)) =
        Some {| client_url := Some new_url |} /\
      webhook_url (fst (set_webhook_url V m new_url)) = Some new_url.
Proof.
  intros Hname. rewrite init_cases, Hname.
  pose proof (proj1 (String.eqb_eq _ _) Hname) as Hl.
  destruct (truthy url); eexists; (split; [reflexivity |]);
    cbn [platform webhook_url client];
    (split; [exact Hl |]); (split; [reflexivity |]);
    (split; [reflexivity |]);
    intros new_url; unfold set_webhook_url, initialize_client;
    cbn [platform]; rewrite Hname; cbn; repeat split.
Qed.

End Delivery.

Lemma unsupported_platform_never_sends_witness :
  match init Sample.validator SampleDelivery.teams_state
             (Some SampleDelivery.hook) "Slack" with
  | Error e =>
      truthy (Some SampleDelivery.hook) = true /\
      exists shown,
        e = ValueError ("Unsupported platform: " ++ shown) /\
        (Text.is_ascii "Slack" = true -> shown = Py.lower "Slack")
  | Ok m =>
      truthy (Some SampleDelivery.hook) = false /\
      client m = None /\
      (forall new_url,
         (exists shown,
            snd (set_webhook_url Sample.validator m new_url) =
              Error (ValueError ("Unsupported platform: " ++ shown)) /\
            (Text.is_ascii "Slack" = true -> shown = Py.lower "Slack")) /\
         client (fst (set_webhook_url Sample.validator m new_url)) = None /\
         webhook_url (fst (set_webhook_url Sample.validator m new_url)) =
           Some new_url) /\
      (forall card validate,
         send Sample.validator Sample.format_float (answering 200 "1")
              m card validate =
         (m,
          {| success := false; status := Some None;
             message := "No webhook URL configured. Use set_webhook_url() first.";
             validation := None |},
          []))
  end.
Proof.
  apply (unsupported_platform_never_sends Sample.validator
           SampleDelivery.teams_state Sample.format_float
           (answering 200 "1") (Some SampleDelivery.hook) "Slack").
  reflexivity.
Defined.

(** The two ways an unsupported ASCII platform shows up: at construction
    with a URL, and at [set_webhook_url] on a manager built without one. *)
Example slack_is_refused :
  init Sample.validator SampleDelivery.teams_state
       (Some SampleDelivery.hook) "Slack"
    = Error (ValueError "Unsupported platform: slack") /\
  (exists m,
     init Sample.validator SampleDelivery.teams_state None "Slack" = Ok m /\
     snd (set_webhook_url Sample.validator m SampleDelivery.hook)
       = Error (ValueError "Unsupported platform: slack") /\
     client (fst (set_webhook_url Sample.validator m SampleDelivery.hook))
       = None).
Proof.
  split; [reflexivity |].
  eexists. split; [reflexivity |]. split; reflexivity.
Qed.

Lemma invalid_card_is_not_sent_witness :
  let '(_, result, handed) :=
    send Sample.validator Sample.format_float (answering 200 "1")
         SampleDelivery.manager (Sample.card_of []) true in
  handed = [] /\
  success result = false /\
  status result = None /\
  message result = validation_failed_message /\
  validation result =
    Some (snd (ValidationUtility.validate Sample.validator Sample.format_float
                 (validation_utility SampleDelivery.manager)
                 (Sample.card_of []))).
Proof.
  apply (invalid_card_is_not_sent Sample.validator Sample.format_float
           (answering 200 "1") SampleDelivery.manager
           {| client_url := Some SampleDelivery.hook |} (Sample.card_of [])).
  - reflexivity.
  - reflexivity.
Defined.

Lemma client_creation_on_teams_witness :
  exists m,
    init Sample.validator SampleDelivery.teams_state (Some "") "Teams" = Ok m /\
    platform m = "teams" /\
    webhook_url m = Some "" /\
    client m = (if truthy (Some "") then Some {| client_url := Some "" |}
                else None) /\
    forall new_url,
      snd (set_webhook_url Sample.validator m new_url) = Ok tt /\
      client (fst (set_webhook_url Sample.validator m new_url)) =
        Some {| client_url := Some new_url |} /\
      webhook_url (fst (set_webhook_url Sample.validator m new_url)) =
        Some new_url.
Proof.
  apply (client_creation_on_teams Sample.validator SampleDelivery.teams_state
           (Some "") "Teams").
  reflexivity.
Defined.

(** The sample manager is the one the constructor builds, and a card of
    two notes passes validation and is delivered on a 200 response. *)
Example sample_manager_delivers :
  init Sample.validator SampleDelivery.teams_state
       (Some SampleDelivery.hook) "teams" = Ok SampleDelivery.manager /\
  success (snd (fst (send Sample.validator Sample.format_float
                       (answering 200 "1") SampleDelivery.manager
                       (Sample.card_of (Sample.notes 2)) true))) = true /\
  status (snd (fst (send Sample.validator Sample.format_float
                      (answering 200 "1") SampleDelivery.manager
                      (Sample.card_of (Sample.notes 2)) true)))
    = Some (Some 200%Z) /\
  List.length (snd (send Sample.validator Sample.format_float
                      (answering 200 "1") SampleDelivery.manager
                      (Sample.card_of (Sample.notes 2)) true)) = 1.
Proof.
  split; [reflexivity |].
  split; [vm_compute; reflexivity |].
  split; vm_compute; reflexivity.
Qed.

End DeliveryFacts.
